(** * RPC wrappers of the certificate authority (rpc/rpc-wrappers.go)

    A shallow embedding of the server adapters and client stubs that
    rpc-wrappers.go defines for the four roles (Registration, Validation,
    Certificate and Storage Authority), followed by the properties of the
    specification that concern them.

    Go values are modelled as follows.
    - [[]byte] is [list byte]; a Go [string] is [String.string]; the
      conversions [string(b)] and [[]byte(s)] are [string_of_list_byte] and
      [list_byte_of_string].
    - [int] and [int64] are [Z] (the wrappers never compute with them).
    - a Go [error] is [option error], [None] being [nil]; a function that
      returns [(v, err)] returns a pair.
    - [interface{}] is the dynamic pair [obj] of a type and a value.
    - the effects of the wrappers (audit log, info log, calls into the bound
      implementation, dispatch over the transport) are threaded through the
      state monad [M] over [World]. *)

From Stdlib Require Import List String ZArith Bool Lia.
From Stdlib Require Import Strings.Byte Strings.Ascii DecimalString.
Import ListNotations.
Local Open Scope string_scope.
Local Open Scope list_scope.

Set Implicit Arguments.

(** ** Values *)

Definition bytes : Type := list byte.

(** [len(b) == 0] on a slice. *)
Definition len0 (b : bytes) : bool :=
  match b with [] => true | _ :: _ => false end.

(** Go error values.  [sql_ErrNoRows] is the sentinel [sql.ErrNoRows], which
    the storage adapter compares by identity; [errors_New] is an error built
    by [errors.New] inside the wrappers; [foreign_error] is an error value
    handed over by a collaborator (codec, x509 parser, implementation,
    transport), identified by its message. *)
Inductive error : Type :=
| sql_ErrNoRows
| errors_New (text : string)
| foreign_error (text : string).

(** The [Error()] method. *)
Definition Error (e : error) : string :=
  match e with
  | sql_ErrNoRows => "sql: no rows in result set"
  | errors_New text => text
  | foreign_error text => text
  end.

Definition error_eqb (a b : error) : bool :=
  match a, b with
  | sql_ErrNoRows, sql_ErrNoRows => true
  | errors_New s, errors_New t => String.eqb s t
  | foreign_error s, foreign_error t => String.eqb s t
  | _, _ => false
  end.

(** [err != nil] *)
Definition notnil (err : option error) : bool :=
  match err with Some _ => true | None => false end.

(** [interface{}]: a value together with its dynamic type. *)
Inductive obj : Type :=
| Obj : forall T : Type, T -> obj.

(** ** Operation names *)

Definition MethodNewRegistration := "NewRegistration".
Definition MethodNewAuthorization := "NewAuthorization".
Definition MethodNewCertificate := "NewCertificate".
Definition MethodUpdateRegistration := "UpdateRegistration".
Definition MethodUpdateAuthorization := "UpdateAuthorization".
Definition MethodRevokeCertificate := "RevokeCertificate".
Definition MethodOnValidationUpdate := "OnValidationUpdate".
Definition MethodUpdateValidations := "UpdateValidations".
Definition MethodIssueCertificate := "IssueCertificate".
Definition MethodGenerateOCSP := "GenerateOCSP".
Definition MethodGetRegistration := "GetRegistration".
Definition MethodGetRegistrationByKey := "GetRegistrationByKey".
Definition MethodGetAuthorization := "GetAuthorization".
Definition MethodGetCertificate := "GetCertificate".
Definition MethodGetCertificateByShortSerial := "GetCertificateByShortSerial".
Definition MethodGetCertificateStatus := "GetCertificateStatus".
Definition MethodMarkCertificateRevoked := "MarkCertificateRevoked".
Definition MethodNewPendingAuthorization := "NewPendingAuthorization".
Definition MethodUpdatePendingAuthorization := "UpdatePendingAuthorization".
Definition MethodFinalizeAuthorization := "FinalizeAuthorization".
Definition MethodAddCertificate := "AddCertificate".
Definition MethodAlreadyDeniedCSR := "AlreadyDeniedCSR".

(** ** Types the wrappers take from other packages

    The wrappers move values of the packages core, crypto/x509, go-jose and
    time, whose declarations are outside rpc-wrappers.go.  They are fields of
    one class, with the state of the collaborators (the bound
    implementations and the transport). *)
Class Core : Type := {
  Registration : Type;            (* core.Registration *)
  Authorization : Type;           (* core.Authorization *)
  Challenge : Type;               (* core.Challenge *)
  CertificateRequest : Type;      (* core.CertificateRequest *)
  Certificate : Type;             (* core.Certificate *)
  CertificateStatus : Type;       (* core.CertificateStatus *)
  OCSPSigningRequest : Type;      (* core.OCSPSigningRequest *)
  x509_Certificate : Type;        (* x509.Certificate *)
  x509_CertificateRequest : Type; (* x509.CertificateRequest *)
  JsonWebKey : Type;              (* jose.JsonWebKey *)
  time_Time : Type;               (* time.Time *)
  ExtState : Type
}.

(** ** The world the wrappers run in *)

(** The two audit helpers write one line each, which differ in their first
    words: "Improper message." and "Error condition.".  An entry keeps the
    three values the line is formatted from. *)
Inductive AuditKind : Type := ImproperMessage | ErrorCondition.

Record AuditEntry : Type := mkAudit {
  a_kind : AuditKind;
  a_method : string;
  a_err : option error;
  a_data : obj
}.

Inductive Role : Type := RA | VA | CA | SA.

(** One call of a method of the bound implementation, with its arguments. *)
Record Call : Type := mkCall {
  c_role : Role;
  c_method : string;
  c_args : obj
}.

Section World.

Context {C : Core}.

Record World : Type := mkWorld {
  audit : list AuditEntry;
  info : list string;
  calls : list Call;
  ext : ExtState
}.

Definition M (A : Type) : Type := World -> A * World.

Definition ret {A} (a : A) : M A := fun w => (a, w).

Definition bind {A B} (m : M A) (k : A -> M B) : M B :=
  fun w => let (a, w') := m w in k a w'.

(** The state after one more audit entry. *)
Definition audited (e : AuditEntry) (w : World) : World :=
  mkWorld (audit w ++ [e]) (info w) (calls w) (ext w).

(** The state after a call [c] was noted and left the collaborators in [x]. *)
Definition called (c : Call) (x : ExtState) (w : World) : World :=
  mkWorld (audit w) (info w) (calls w ++ [c]) x.

(** [blog.GetAuditLogger().Audit(...)] *)
Definition log_Audit (e : AuditEntry) : M unit :=
  fun w => (tt, audited e w).

(** [log.Info(...)] *)
Definition log_Info (msg : string) : M unit :=
  fun w => (tt, mkWorld (audit w) (info w ++ [msg]) (calls w) (ext w)).

Definition improperMessage (method : string) (err : option error) (o : obj) : M unit :=
  log_Audit (mkAudit ImproperMessage method err o).

Definition errorCondition (method : string) (err : option error) (o : obj) : M unit :=
  log_Audit (mkAudit ErrorCondition method err o).

(** A method call on the bound implementation [impl]: the call is noted in
    [calls], then the method runs on the state of the collaborators. *)
Definition invoke {A} (c : Call) (f : ExtState -> A * ExtState) : M A :=
  fun w => let (a, x) := f (ext w) in (a, called c x w).

(** [func(req []byte) (response []byte, err error)], as registered with
    [RPCServer.Handle]. *)
Definition Handler : Type := bytes -> M (bytes * option error).

(** The interface [RPCClient], declared outside rpc-wrappers.go.  The stubs
    call its method [DispatchSync(method string, body []byte) ([]byte, error)]
    and no other. *)
Record RPCClient : Type := mkRPCClient {
  DispatchSync : string -> bytes -> M (bytes * option error)
}.

(** Modelled from the spec: the [ServerEndpoint] collaborator ([RPCServer]),
    whose declaration is outside rpc-wrappers.go.  [Handle] registers a
    byte-to-byte handler under an operation name; the endpoint is the table of
    its registrations, the latest first. *)
Definition RPCServer : Type := list (string * Handler).

Definition Handle (rpc : RPCServer) (name : string) (h : Handler) : RPCServer :=
  (name, h) :: rpc.

Fixpoint registered (rpc : RPCServer) (name : string) : option Handler :=
  match rpc with
  | [] => None
  | (n, h) :: rest => if String.eqb n name then Some h else registered rest name
  end.

(** Modelled from the spec: a transport that delivers each dispatched call to
    the handler registered under its name and hands the handler's result
    back; an unregistered name fails with [UnknownOperation]. *)
Definition loopback (rpc : RPCServer) : RPCClient :=
  mkRPCClient (fun name payload =>
    match registered rpc name with
    | Some h => h payload
    | None => ret ([], Some (foreign_error "UnknownOperation"))
    end).

End World.

Declare Scope go_scope.
Delimit Scope go_scope with go.
Notation "x <- m ;; k" := (bind m (fun x => k))
  (at level 100, m at next level, right associativity) : go_scope.
Notation "' p <- m ;; k" := (bind m (fun x => match x with p => k end))
  (at level 100, p pattern, m at next level, right associativity) : go_scope.
Notation "m ;;; k" := (bind m (fun _ => k))
  (at level 100, right associativity) : go_scope.
Local Open Scope go_scope.

(** ** Request shapes *)

Section Requests.

Context {C : Core}.

Record registrationRequest : Type := mk_registrationRequest {
  rr_Reg : Registration
}.

Record authorizationRequest : Type := mk_authorizationRequest {
  ar_Authz : Authorization;
  ar_RegID : Z
}.

Record certificateRequest : Type := mk_certificateRequest {
  cr_Req : CertificateRequest;
  cr_RegID : Z
}.

(** The remaining shapes are anonymous structs in the source, declared with
    the same fields in the handler and in the stub of an operation. *)

(** [struct { Base, Update core.Registration }] *)
Record updateRegistrationRequest : Type := mk_updateRegistrationRequest {
  ur_Base : Registration;
  ur_Update : Registration
}.

(** [struct { Authz core.Authorization; Index int; Response core.Challenge }] *)
Record updateAuthorizationRequest : Type := mk_updateAuthorizationRequest {
  ua_Authz : Authorization;
  ua_Index : Z;
  ua_Response : Challenge
}.

(** [struct { Authz core.Authorization; Index int }] *)
Record updateValidationsRequest : Type := mk_updateValidationsRequest {
  uv_Authz : Authorization;
  uv_Index : Z
}.

(** [struct { Bytes []byte; RegID int64; EarliestExpiry time.Time }] *)
Record issueCertificateRequest : Type := mk_issueCertificateRequest {
  ic_Bytes : bytes;
  ic_RegID : Z;
  ic_EarliestExpiry : time_Time
}.

(** [struct { Serial string; ReasonCode int }] *)
Record revokeCertificateRequest : Type := mk_revokeCertificateRequest {
  rc_Serial : string;
  rc_ReasonCode : Z
}.

(** [struct { ID int64 }] *)
Record getRegistrationRequest : Type := mk_getRegistrationRequest {
  gr_ID : Z
}.

(** [struct { Bytes []byte; RegID int64 }] *)
Record addCertificateRequest : Type := mk_addCertificateRequest {
  ac_Bytes : bytes;
  ac_RegID : Z
}.

(** [struct { Serial string; OCSPResponse []byte; ReasonCode int }] *)
Record markCertificateRevokedRequest : Type := mk_markCertificateRevokedRequest {
  mr_Serial : string;
  mr_OCSPResponse : bytes;
  mr_ReasonCode : Z
}.

(** [struct { Names []string }] *)
Record alreadyDeniedCSRRequest : Type := mk_alreadyDeniedCSRRequest {
  ad_Names : list string
}.

End Requests.

(** ** Library functions the wrappers call *)

(** The zero value of a type, which a Go variable holds until assigned. *)
Class Zero (T : Type) : Type := zero : T.

(** [encoding/json] at one type.  [json_Marshal v] is [json.Marshal(v)];
    [json_Unmarshal b] is the pair of the value that [json.Unmarshal(b, &v)]
    leaves in a fresh variable [v] and of the error it returns. *)
Class JSON (T : Type) : Type := {
  json_Marshal : T -> bytes * option error;
  json_Unmarshal : bytes -> T * option error
}.

Class Libs {C : Core} : Type := {
  zero_Registration :: Zero Registration;
  zero_Authorization :: Zero Authorization;
  zero_Certificate :: Zero Certificate;
  zero_CertificateStatus :: Zero CertificateStatus;
  zero_Time :: Zero time_Time;
  json_Registration :: JSON Registration;
  json_Authorization :: JSON Authorization;
  json_Certificate :: JSON Certificate;
  json_CertificateStatus :: JSON CertificateStatus;
  json_OCSPSigningRequest :: JSON OCSPSigningRequest;
  json_JsonWebKey :: JSON JsonWebKey;
  json_registrationRequest :: JSON registrationRequest;
  json_authorizationRequest :: JSON authorizationRequest;
  json_certificateRequest :: JSON certificateRequest;
  json_updateRegistrationRequest :: JSON updateRegistrationRequest;
  json_updateAuthorizationRequest :: JSON updateAuthorizationRequest;
  json_updateValidationsRequest :: JSON updateValidationsRequest;
  json_issueCertificateRequest :: JSON issueCertificateRequest;
  json_revokeCertificateRequest :: JSON revokeCertificateRequest;
  json_getRegistrationRequest :: JSON getRegistrationRequest;
  json_addCertificateRequest :: JSON addCertificateRequest;
  json_markCertificateRevokedRequest :: JSON markCertificateRevokedRequest;
  json_alreadyDeniedCSRRequest :: JSON alreadyDeniedCSRRequest;
  (* key.MarshalJSON() *)
  MarshalJSON : JsonWebKey -> bytes * option error;
  (* x509.ParseCertificates *)
  x509_ParseCertificates : bytes -> list x509_Certificate * option error;
  (* x509.ParseCertificateRequest: a certificate request, or else an error *)
  x509_ParseCertificateRequest : bytes -> x509_CertificateRequest + error;
  (* the field Raw of x509.Certificate and of x509.CertificateRequest *)
  cert_Raw : x509_Certificate -> bytes;
  csr_Raw : x509_CertificateRequest -> bytes
}.

(** ** The authority interfaces

    The interfaces core.RegistrationAuthority, core.ValidationAuthority,
    core.CertificateAuthority and core.StorageAuthority, with the method
    signatures that the stubs below implement.  A method runs on the state of
    the collaborators. *)

Module RegistrationAuthority.
Section Interface.
Context {C : Core}.
Record t : Type := mk {
  NewRegistration : Registration -> ExtState -> (Registration * option error) * ExtState;
  NewAuthorization : Authorization -> Z -> ExtState -> (Authorization * option error) * ExtState;
  NewCertificate : CertificateRequest -> Z -> ExtState -> (Certificate * option error) * ExtState;
  UpdateRegistration : Registration -> Registration -> ExtState -> (Registration * option error) * ExtState;
  UpdateAuthorization : Authorization -> Z -> Challenge -> ExtState -> (Authorization * option error) * ExtState;
  RevokeCertificate : x509_Certificate -> ExtState -> option error * ExtState;
  OnValidationUpdate : Authorization -> ExtState -> option error * ExtState
}.
End Interface.
End RegistrationAuthority.

Module ValidationAuthority.
Section Interface.
Context {C : Core}.
Record t : Type := mk {
  UpdateValidations : Authorization -> Z -> ExtState -> option error * ExtState
}.
End Interface.
End ValidationAuthority.

Module CertificateAuthority.
Section Interface.
Context {C : Core}.
Record t : Type := mk {
  IssueCertificate : x509_CertificateRequest -> Z -> time_Time -> ExtState -> (Certificate * option error) * ExtState;
  RevokeCertificate : string -> Z -> ExtState -> option error * ExtState;
  GenerateOCSP : OCSPSigningRequest -> ExtState -> (bytes * option error) * ExtState
}.
End Interface.
End CertificateAuthority.

Module StorageAuthority.
Section Interface.
Context {C : Core}.
Record t : Type := mk {
  GetRegistration : Z -> ExtState -> (Registration * option error) * ExtState;
  GetRegistrationByKey : JsonWebKey -> ExtState -> (Registration * option error) * ExtState;
  GetAuthorization : string -> ExtState -> (Authorization * option error) * ExtState;
  GetCertificate : string -> ExtState -> (bytes * option error) * ExtState;
  GetCertificateByShortSerial : string -> ExtState -> (bytes * option error) * ExtState;
  GetCertificateStatus : string -> ExtState -> (CertificateStatus * option error) * ExtState;
  MarkCertificateRevoked : string -> bytes -> Z -> ExtState -> option error * ExtState;
  UpdateRegistration : Registration -> ExtState -> option error * ExtState;
  NewRegistration : Registration -> ExtState -> (Registration * option error) * ExtState;
  NewPendingAuthorization : Authorization -> ExtState -> (Authorization * option error) * ExtState;
  UpdatePendingAuthorization : Authorization -> ExtState -> option error * ExtState;
  FinalizeAuthorization : Authorization -> ExtState -> option error * ExtState;
  AddCertificate : bytes -> Z -> ExtState -> (string * option error) * ExtState;
  AlreadyDeniedCSR : list string -> ExtState -> (bool * option error) * ExtState
}.
End Interface.
End StorageAuthority.

(** ** Registration Authority: server side *)

Module RegistrationAuthorityServer.
Section Handlers.
Context {C : Core} {L : Libs}.
Variable impl : RegistrationAuthority.t.

Definition NewRegistration : Handler := fun req =>
  let (rr, err) := json_Unmarshal (T := registrationRequest) req in
  if notnil err then
    improperMessage MethodNewRegistration err (Obj req) ;;;
    ret ([], err)
  else
    '(reg, err) <- invoke (mkCall RA "NewRegistration" (Obj (rr_Reg rr)))
                     (RegistrationAuthority.NewRegistration impl (rr_Reg rr)) ;;
    if notnil err then
      errorCondition MethodNewRegistration err (Obj reg) ;;;
      ret ([], err)
    else
      let (response, err) := json_Marshal reg in
      if notnil err then
        errorCondition MethodNewRegistration err (Obj req) ;;;
        ret (response, err)
      else ret (response, err).

Definition NewAuthorization : Handler := fun req =>
  let (ar, err) := json_Unmarshal (T := authorizationRequest) req in
  if notnil err then
    improperMessage MethodNewAuthorization err (Obj req) ;;;
    ret ([], err)
  else
    '(authz, err) <- invoke (mkCall RA "NewAuthorization" (Obj (ar_Authz ar, ar_RegID ar)))
                       (RegistrationAuthority.NewAuthorization impl (ar_Authz ar) (ar_RegID ar)) ;;
    if notnil err then
      errorCondition MethodNewAuthorization err (Obj ar) ;;;
      ret ([], err)
    else
      let (response, err) := json_Marshal authz in
      if notnil err then
        errorCondition MethodNewAuthorization err (Obj req) ;;;
        ret (response, err)
      else ret (response, err).

Definition NewCertificate : Handler := fun req =>
  log_Info " [.] Entering MethodNewCertificate" ;;;
  let (cr, err) := json_Unmarshal (T := certificateRequest) req in
  if notnil err then
    improperMessage MethodNewCertificate err (Obj req) ;;;
    ret ([], err)
  else
    log_Info " [.] No problem unmarshaling request" ;;;
    '(cert, err) <- invoke (mkCall RA "NewCertificate" (Obj (cr_Req cr, cr_RegID cr)))
                      (RegistrationAuthority.NewCertificate impl (cr_Req cr) (cr_RegID cr)) ;;
    if notnil err then
      errorCondition MethodNewCertificate err (Obj cr) ;;;
      ret ([], err)
    else
      log_Info " [.] No problem issuing new cert" ;;;
      let (response, err) := json_Marshal cert in
      if notnil err then
        errorCondition MethodNewCertificate err (Obj req) ;;;
        ret (response, err)
      else ret (response, err).

Definition UpdateRegistration : Handler := fun req =>
  let (request, err) := json_Unmarshal (T := updateRegistrationRequest) req in
  if notnil err then
    improperMessage MethodUpdateRegistration err (Obj req) ;;;
    ret ([], err)
  else
    '(reg, err) <- invoke (mkCall RA "UpdateRegistration" (Obj (ur_Base request, ur_Update request)))
                     (RegistrationAuthority.UpdateRegistration impl (ur_Base request) (ur_Update request)) ;;
    if notnil err then
      errorCondition MethodUpdateRegistration err (Obj request) ;;;
      ret ([], err)
    else
      let (response, err) := json_Marshal reg in
      if notnil err then
        errorCondition MethodUpdateRegistration err (Obj req) ;;;
        ret (response, err)
      else ret (response, err).

Definition UpdateAuthorization : Handler := fun req =>
  let (authz, err) := json_Unmarshal (T := updateAuthorizationRequest) req in
  if notnil err then
    improperMessage MethodUpdateAuthorization err (Obj req) ;;;
    ret ([], err)
  else
    '(newAuthz, err) <- invoke (mkCall RA "UpdateAuthorization"
                                  (Obj (ua_Authz authz, ua_Index authz, ua_Response authz)))
                          (RegistrationAuthority.UpdateAuthorization impl
                             (ua_Authz authz) (ua_Index authz) (ua_Response authz)) ;;
    if notnil err then
      errorCondition MethodUpdateAuthorization err (Obj authz) ;;;
      ret ([], err)
    else
      let (response, err) := json_Marshal newAuthz in
      if notnil err then
        errorCondition MethodUpdateAuthorization err (Obj req) ;;;
        ret (response, err)
      else ret (response, err).

(** The payload is the certificate itself, parsed as a list of
    certificates of which the first is revoked.  The guard
    [err != nil || len(certs) == 0] is written by cases on [certs], so that
    [certs[0]] is at hand where the guard is passed.  A parse that yields no
    certificate and no error is audited too, and the handler then returns
    the nil error it holds. *)
Definition RevokeCertificate : Handler := fun req =>
  let (certs, err) := x509_ParseCertificates req in
  match certs with
  | [] =>
    improperMessage MethodRevokeCertificate err (Obj req) ;;;
    ret ([], err)
  | cert0 :: _ =>
    if notnil err then
      improperMessage MethodRevokeCertificate err (Obj req) ;;;
      ret ([], err)
    else
      err <- invoke (mkCall RA "RevokeCertificate" (Obj cert0))
               (RegistrationAuthority.RevokeCertificate impl cert0) ;;
      if notnil err then
        errorCondition MethodRevokeCertificate err (Obj certs) ;;;
        ret ([], err)
      else ret ([], err)
  end.

Definition OnValidationUpdate : Handler := fun req =>
  let (authz, err) := json_Unmarshal (T := Authorization) req in
  if notnil err then
    improperMessage MethodOnValidationUpdate err (Obj req) ;;;
    ret ([], err)
  else
    err <- invoke (mkCall RA "OnValidationUpdate" (Obj authz))
             (RegistrationAuthority.OnValidationUpdate impl authz) ;;
    if notnil err then
      errorCondition MethodOnValidationUpdate err (Obj authz) ;;;
      ret ([], err)
    else ret ([], err).

End Handlers.
End RegistrationAuthorityServer.

Section NewRegistrationAuthorityServer.
Context {C : Core} {L : Libs}.

Definition NewRegistrationAuthorityServer (rpc : RPCServer) (impl : RegistrationAuthority.t)
  : RPCServer * option error :=
  let rpc := Handle rpc MethodNewRegistration (RegistrationAuthorityServer.NewRegistration impl) in
  let rpc := Handle rpc MethodNewAuthorization (RegistrationAuthorityServer.NewAuthorization impl) in
  let rpc := Handle rpc MethodNewCertificate (RegistrationAuthorityServer.NewCertificate impl) in
  let rpc := Handle rpc MethodUpdateRegistration (RegistrationAuthorityServer.UpdateRegistration impl) in
  let rpc := Handle rpc MethodUpdateAuthorization (RegistrationAuthorityServer.UpdateAuthorization impl) in
  let rpc := Handle rpc MethodRevokeCertificate (RegistrationAuthorityServer.RevokeCertificate impl) in
  let rpc := Handle rpc MethodOnValidationUpdate (RegistrationAuthorityServer.OnValidationUpdate impl) in
  (rpc, None).

End NewRegistrationAuthorityServer.

(** ** Registration Authority: client side *)

Module RegistrationAuthorityClient.
Section Stubs.
Context {C : Core} {L : Libs}.

Record t : Type := mk { rpc : RPCClient }.

Definition NewRegistrationAuthorityClient (client : RPCClient) : t * option error :=
  (mk client, None).

Variable rac : t.

Definition NewRegistration (reg : Registration) : M (Registration * option error) :=
  let (data, err) := json_Marshal (mk_registrationRequest reg) in
  if notnil err then ret (zero, err)
  else
    '(newRegData, err) <- DispatchSync (rpc rac) MethodNewRegistration data ;;
    if notnil err || len0 newRegData then ret (zero, err)
    else ret (json_Unmarshal newRegData).

Definition NewAuthorization (authz : Authorization) (regID : Z) : M (Authorization * option error) :=
  let (data, err) := json_Marshal (mk_authorizationRequest authz regID) in
  if notnil err then ret (zero, err)
  else
    '(newAuthzData, err) <- DispatchSync (rpc rac) MethodNewAuthorization data ;;
    if notnil err || len0 newAuthzData then ret (zero, err)
    else ret (json_Unmarshal newAuthzData).

Definition NewCertificate (cr : CertificateRequest) (regID : Z) : M (Certificate * option error) :=
  let (data, err) := json_Marshal (mk_certificateRequest cr regID) in
  if notnil err then ret (zero, err)
  else
    '(certData, err) <- DispatchSync (rpc rac) MethodNewCertificate data ;;
    if notnil err then ret (zero, err)
    else if len0 certData then
      ret (zero, Some (errors_New "NewCertificate RPC to RA failed."))
    else ret (json_Unmarshal certData).

Definition UpdateRegistration (base update : Registration) : M (Registration * option error) :=
  let toSend := mk_updateRegistrationRequest base update in
  let (data, err) := json_Marshal toSend in
  if notnil err then ret (zero, err)
  else
    '(newRegData, err) <- DispatchSync (rpc rac) MethodUpdateRegistration data ;;
    if notnil err || len0 newRegData then ret (zero, err)
    else ret (json_Unmarshal newRegData).

Definition UpdateAuthorization (authz : Authorization) (index : Z) (response : Challenge)
  : M (Authorization * option error) :=
  let toSend := mk_updateAuthorizationRequest authz index response in
  let (data, err) := json_Marshal toSend in
  if notnil err then ret (zero, err)
  else
    '(newAuthzData, err) <- DispatchSync (rpc rac) MethodUpdateAuthorization data ;;
    if notnil err || len0 newAuthzData then ret (zero, err)
    else ret (json_Unmarshal newAuthzData).

Definition RevokeCertificate (cert : x509_Certificate) : M (option error) :=
  '(_, err) <- DispatchSync (rpc rac) MethodRevokeCertificate (cert_Raw cert) ;;
  ret err.

Definition OnValidationUpdate (authz : Authorization) : M (option error) :=
  let (data, err) := json_Marshal authz in
  if notnil err then ret err
  else
    '(_, err) <- DispatchSync (rpc rac) MethodOnValidationUpdate data ;;
    ret err.

End Stubs.
End RegistrationAuthorityClient.

(** ** Validation Authority *)

Module ValidationAuthorityServer.
Section Handlers.
Context {C : Core} {L : Libs}.
Variable impl : ValidationAuthority.t.

Definition UpdateValidations : Handler := fun req =>
  let (vaReq, err) := json_Unmarshal (T := updateValidationsRequest) req in
  if notnil err then
    improperMessage MethodUpdateValidations err (Obj req) ;;;
    ret ([], err)
  else
    err <- invoke (mkCall VA "UpdateValidations" (Obj (uv_Authz vaReq, uv_Index vaReq)))
             (ValidationAuthority.UpdateValidations impl (uv_Authz vaReq) (uv_Index vaReq)) ;;
    if notnil err then
      errorCondition MethodUpdateValidations err (Obj vaReq) ;;;
      ret ([], err)
    else ret ([], err).

End Handlers.
End ValidationAuthorityServer.

Section NewValidationAuthorityServer.
Context {C : Core} {L : Libs}.

Definition NewValidationAuthorityServer (rpc : RPCServer) (impl : ValidationAuthority.t)
  : RPCServer * option error :=
  let rpc := Handle rpc MethodUpdateValidations (ValidationAuthorityServer.UpdateValidations impl) in
  (rpc, None).

End NewValidationAuthorityServer.

Module ValidationAuthorityClient.
Section Stubs.
Context {C : Core} {L : Libs}.

Record t : Type := mk { rpc : RPCClient }.

Definition NewValidationAuthorityClient (client : RPCClient) : t * option error :=
  (mk client, None).

Variable vac : t.

(** The error of the dispatch is assigned to [err], and the method then
    returns the constant [nil]. *)
Definition UpdateValidations (authz : Authorization) (index : Z) : M (option error) :=
  let vaReq := mk_updateValidationsRequest authz index in
  let (data, err) := json_Marshal vaReq in
  if notnil err then ret err
  else
    '(_, err) <- DispatchSync (rpc vac) MethodUpdateValidations data ;;
    ret None.

End Stubs.
End ValidationAuthorityClient.

(** ** Certificate Authority *)

Module CertificateAuthorityServer.
Section Handlers.
Context {C : Core} {L : Libs}.
Variable impl : CertificateAuthority.t.

Definition IssueCertificate : Handler := fun req =>
  let (icReq, err) := json_Unmarshal (T := issueCertificateRequest) req in
  if notnil err then
    improperMessage MethodIssueCertificate err (Obj req) ;;;
    ret ([], err)
  else
    match x509_ParseCertificateRequest (ic_Bytes icReq) with
    | inr e =>
      improperMessage MethodIssueCertificate (Some e) (Obj req) ;;;
      ret ([], Some e)
    | inl csr =>
      '(cert, err) <- invoke (mkCall CA "IssueCertificate"
                                (Obj (csr, ic_RegID icReq, ic_EarliestExpiry icReq)))
                        (CertificateAuthority.IssueCertificate impl
                           csr (ic_RegID icReq) (ic_EarliestExpiry icReq)) ;;
      if notnil err then
        errorCondition MethodIssueCertificate err (Obj csr) ;;;
        ret ([], err)
      else
        let (response, err) := json_Marshal cert in
        if notnil err then
          errorCondition MethodGetRegistration err (Obj req) ;;;
          ret (response, err)
        else ret (response, err)
    end.

(** The error of the implementation is bound by [if err := ...] to a variable
    of the [if] statement alone: the result [err] of the handler keeps the nil
    it got from the decoding. *)
Definition RevokeCertificate : Handler := fun req =>
  let (revokeReq, err) := json_Unmarshal (T := revokeCertificateRequest) req in
  if notnil err then
    errorCondition MethodRevokeCertificate err (Obj req) ;;;
    ret ([], err)
  else
    err' <- invoke (mkCall CA "RevokeCertificate" (Obj (rc_Serial revokeReq, rc_ReasonCode revokeReq)))
              (CertificateAuthority.RevokeCertificate impl (rc_Serial revokeReq) (rc_ReasonCode revokeReq)) ;;
    if notnil err' then
      errorCondition MethodRevokeCertificate err' (Obj req) ;;;
      ret ([], err)
    else ret ([], err).

Definition GenerateOCSP : Handler := fun req =>
  let (xferObj, err) := json_Unmarshal (T := OCSPSigningRequest) req in
  if notnil err then
    errorCondition MethodGenerateOCSP err (Obj req) ;;;
    ret ([], err)
  else
    '(response, err) <- invoke (mkCall CA "GenerateOCSP" (Obj xferObj))
                          (CertificateAuthority.GenerateOCSP impl xferObj) ;;
    if notnil err then
      errorCondition MethodGenerateOCSP err (Obj req) ;;;
      ret (response, err)
    else ret (response, err).

End Handlers.
End CertificateAuthorityServer.

Section NewCertificateAuthorityServer.
Context {C : Core} {L : Libs}.

Definition NewCertificateAuthorityServer (rpc : RPCServer) (impl : CertificateAuthority.t)
  : RPCServer * option error :=
  let rpc := Handle rpc MethodIssueCertificate (CertificateAuthorityServer.IssueCertificate impl) in
  let rpc := Handle rpc MethodRevokeCertificate (CertificateAuthorityServer.RevokeCertificate impl) in
  let rpc := Handle rpc MethodGenerateOCSP (CertificateAuthorityServer.GenerateOCSP impl) in
  (rpc, None).

End NewCertificateAuthorityServer.

Module CertificateAuthorityClient.
Section Stubs.
Context {C : Core} {L : Libs}.

Record t : Type := mk { rpc : RPCClient }.

Definition NewCertificateAuthorityClient (client : RPCClient) : t * option error :=
  (mk client, None).

Variable cac : t.

(** [icReq] is declared with its three fields at their zero values; the
    method assigns [Bytes] and [RegID]. *)
Definition IssueCertificate (csr : x509_CertificateRequest) (regID : Z) (earliestExpiry : time_Time)
  : M (Certificate * option error) :=
  let icReq := mk_issueCertificateRequest (csr_Raw csr) regID zero in
  let (data, err) := json_Marshal icReq in
  if notnil err then ret (zero, err)
  else
    '(jsonResponse, err) <- DispatchSync (rpc cac) MethodIssueCertificate data ;;
    if notnil err then ret (zero, err)
    else if len0 jsonResponse then
      ret (zero, Some (errors_New "IssueCertificate RPC to CA failed."))
    else ret (json_Unmarshal jsonResponse).

Definition RevokeCertificate (serial : string) (reasonCode : Z) : M (option error) :=
  let revokeReq := mk_revokeCertificateRequest serial reasonCode in
  let (data, err) := json_Marshal revokeReq in
  if notnil err then
    errorCondition MethodRevokeCertificate err (Obj revokeReq) ;;;
    ret err
  else
    '(_, err) <- DispatchSync (rpc cac) MethodRevokeCertificate data ;;
    ret err.

Definition GenerateOCSP (signRequest : OCSPSigningRequest) : M (bytes * option error) :=
  let (data, err) := json_Marshal signRequest in
  if notnil err then
    errorCondition MethodGetRegistration err (Obj signRequest) ;;;
    ret ([], err)
  else
    DispatchSync (rpc cac) MethodGenerateOCSP data.

End Stubs.
End CertificateAuthorityClient.

(** ** Storage Authority: server side *)

Module StorageAuthorityServer.
Section Handlers.
Context {C : Core} {L : Libs}.
Variable impl : StorageAuthority.t.

Definition UpdateRegistration : Handler := fun req =>
  let (reg, err) := json_Unmarshal (T := Registration) req in
  if notnil err then
    improperMessage MethodUpdateRegistration err (Obj req) ;;;
    ret ([], err)
  else
    err <- invoke (mkCall SA "UpdateRegistration" (Obj reg))
             (StorageAuthority.UpdateRegistration impl reg) ;;
    if notnil err then
      errorCondition MethodUpdateRegistration err (Obj req) ;;;
      ret ([], err)
    else ret ([], err).

Definition GetRegistration : Handler := fun req =>
  let (intReq, err) := json_Unmarshal (T := getRegistrationRequest) req in
  if notnil err then
    improperMessage MethodGetRegistration err (Obj req) ;;;
    ret ([], err)
  else
    '(reg, err) <- invoke (mkCall SA "GetRegistration" (Obj (gr_ID intReq)))
                     (StorageAuthority.GetRegistration impl (gr_ID intReq)) ;;
    if notnil err then
      errorCondition MethodGetRegistration err (Obj req) ;;;
      ret ([], err)
    else
      let (response, err) := json_Marshal reg in
      if notnil err then
        errorCondition MethodGetRegistration err (Obj req) ;;;
        ret (response, err)
      else ret (response, err).

Definition GetRegistrationByKey : Handler := fun req =>
  let (jwk, err) := json_Unmarshal (T := JsonWebKey) req in
  if notnil err then
    improperMessage MethodGetRegistrationByKey err (Obj req) ;;;
    ret ([], err)
  else
    '(reg, err) <- invoke (mkCall SA "GetRegistrationByKey" (Obj jwk))
                     (StorageAuthority.GetRegistrationByKey impl jwk) ;;
    if notnil err then
      errorCondition MethodGetRegistrationByKey err (Obj jwk) ;;;
      ret ([], err)
    else
      let (response, err) := json_Marshal reg in
      if notnil err then
        errorCondition MethodGetRegistrationByKey err (Obj req) ;;;
        ret (response, err)
      else ret (response, err).

Definition GetAuthorization : Handler := fun req =>
  '(authz, err) <- invoke (mkCall SA "GetAuthorization" (Obj (string_of_list_byte req)))
                     (StorageAuthority.GetAuthorization impl (string_of_list_byte req)) ;;
  if notnil err then
    errorCondition MethodGetAuthorization err (Obj req) ;;;
    ret ([], err)
  else
    let (response, err) := json_Marshal authz in
    if notnil err then
      errorCondition MethodGetAuthorization err (Obj req) ;;;
      ret (response, err)
    else ret (response, err).

Definition AddCertificate : Handler := fun req =>
  let (icReq, err) := json_Unmarshal (T := addCertificateRequest) req in
  if notnil err then
    improperMessage MethodAddCertificate err (Obj req) ;;;
    ret ([], err)
  else
    '(id, err) <- invoke (mkCall SA "AddCertificate" (Obj (ac_Bytes icReq, ac_RegID icReq)))
                    (StorageAuthority.AddCertificate impl (ac_Bytes icReq) (ac_RegID icReq)) ;;
    if notnil err then
      errorCondition MethodAddCertificate err (Obj req) ;;;
      ret ([], err)
    else ret (list_byte_of_string id, err).

Definition NewRegistration : Handler := fun req =>
  let (registration, err) := json_Unmarshal (T := Registration) req in
  if notnil err then
    improperMessage MethodNewRegistration err (Obj req) ;;;
    ret ([], err)
  else
    '(output, err) <- invoke (mkCall SA "NewRegistration" (Obj registration))
                        (StorageAuthority.NewRegistration impl registration) ;;
    if notnil err then
      errorCondition MethodNewRegistration err (Obj registration) ;;;
      ret ([], err)
    else
      let (response, err) := json_Marshal output in
      if notnil err then
        errorCondition MethodNewRegistration err (Obj req) ;;;
        ret (response, err)
      else ret (response, err).

Definition NewPendingAuthorization : Handler := fun req =>
  let (authz, err) := json_Unmarshal (T := Authorization) req in
  if notnil err then
    improperMessage MethodNewPendingAuthorization err (Obj req) ;;;
    ret ([], err)
  else
    '(output, err) <- invoke (mkCall SA "NewPendingAuthorization" (Obj authz))
                        (StorageAuthority.NewPendingAuthorization impl authz) ;;
    if notnil err then
      errorCondition MethodNewPendingAuthorization err (Obj req) ;;;
      ret ([], err)
    else
      let (response, err) := json_Marshal output in
      if notnil err then
        errorCondition MethodNewPendingAuthorization err (Obj req) ;;;
        ret (response, err)
      else ret (response, err).

Definition UpdatePendingAuthorization : Handler := fun req =>
  let (authz, err) := json_Unmarshal (T := Authorization) req in
  if notnil err then
    improperMessage MethodUpdatePendingAuthorization err (Obj req) ;;;
    ret ([], err)
  else
    err <- invoke (mkCall SA "UpdatePendingAuthorization" (Obj authz))
             (StorageAuthority.UpdatePendingAuthorization impl authz) ;;
    if notnil err then
      errorCondition MethodUpdatePendingAuthorization err (Obj authz) ;;;
      ret ([], err)
    else ret ([], err).

Definition FinalizeAuthorization : Handler := fun req =>
  let (authz, err) := json_Unmarshal (T := Authorization) req in
  if notnil err then
    improperMessage MethodFinalizeAuthorization err (Obj req) ;;;
    ret ([], err)
  else
    err <- invoke (mkCall SA "FinalizeAuthorization" (Obj authz))
             (StorageAuthority.FinalizeAuthorization impl authz) ;;
    if notnil err then
      errorCondition MethodFinalizeAuthorization err (Obj authz) ;;;
      ret ([], err)
    else ret ([], err).

Definition GetCertificate : Handler := fun req =>
  '(cert, err) <- invoke (mkCall SA "GetCertificate" (Obj (string_of_list_byte req)))
                    (StorageAuthority.GetCertificate impl (string_of_list_byte req)) ;;
  if notnil err then
    errorCondition MethodGetCertificate err (Obj req) ;;;
    ret ([], err)
  else ret (cert, err).

(** [err != sql.ErrNoRows] compares the error with the sentinel. *)
Definition GetCertificateByShortSerial : Handler := fun req =>
  '(cert, err) <- invoke (mkCall SA "GetCertificateByShortSerial" (Obj (string_of_list_byte req)))
                    (StorageAuthority.GetCertificateByShortSerial impl (string_of_list_byte req)) ;;
  match err with
  | Some e =>
    if negb (error_eqb e sql_ErrNoRows) then
      errorCondition MethodGetCertificateByShortSerial err (Obj req) ;;;
      ret ([], err)
    else ret ([], err)
  | None => ret (cert, err)
  end.

Definition GetCertificateStatus : Handler := fun req =>
  '(status, err) <- invoke (mkCall SA "GetCertificateStatus" (Obj (string_of_list_byte req)))
                      (StorageAuthority.GetCertificateStatus impl (string_of_list_byte req)) ;;
  if notnil err then
    errorCondition MethodGetCertificateStatus err (Obj req) ;;;
    ret ([], err)
  else
    let (response, err) := json_Marshal status in
    if notnil err then
      errorCondition MethodGetCertificateStatus err (Obj req) ;;;
      ret (response, err)
    else ret (response, err).

Definition MarkCertificateRevoked : Handler := fun req =>
  let (revokeReq, err) := json_Unmarshal (T := markCertificateRevokedRequest) req in
  if notnil err then
    improperMessage MethodMarkCertificateRevoked err (Obj req) ;;;
    ret ([], err)
  else
    err <- invoke (mkCall SA "MarkCertificateRevoked"
                     (Obj (mr_Serial revokeReq, mr_OCSPResponse revokeReq, mr_ReasonCode revokeReq)))
             (StorageAuthority.MarkCertificateRevoked impl
                (mr_Serial revokeReq) (mr_OCSPResponse revokeReq) (mr_ReasonCode revokeReq)) ;;
    if notnil err then
      errorCondition MethodMarkCertificateRevoked err (Obj revokeReq) ;;;
      ret ([], err)
    else ret ([], err).

Definition AlreadyDeniedCSR : Handler := fun req =>
  let (csrReq, err) := json_Unmarshal (T := alreadyDeniedCSRRequest) req in
  if notnil err then
    improperMessage MethodAlreadyDeniedCSR err (Obj req) ;;;
    ret ([], err)
  else
    '(exists_, err) <- invoke (mkCall SA "AlreadyDeniedCSR" (Obj (ad_Names csrReq)))
                         (StorageAuthority.AlreadyDeniedCSR impl (ad_Names csrReq)) ;;
    if notnil err then
      errorCondition MethodAlreadyDeniedCSR err (Obj csrReq) ;;;
      ret ([], err)
    else if (exists_ : bool) then ret ([x01%byte], err)
    else ret ([x00%byte], err).

End Handlers.
End StorageAuthorityServer.

Section NewStorageAuthorityServer.
Context {C : Core} {L : Libs}.

Definition NewStorageAuthorityServer (rpc : RPCServer) (impl : StorageAuthority.t)
  : RPCServer * option error :=
  let rpc := Handle rpc MethodUpdateRegistration (StorageAuthorityServer.UpdateRegistration impl) in
  let rpc := Handle rpc MethodGetRegistration (StorageAuthorityServer.GetRegistration impl) in
  let rpc := Handle rpc MethodGetRegistrationByKey (StorageAuthorityServer.GetRegistrationByKey impl) in
  let rpc := Handle rpc MethodGetAuthorization (StorageAuthorityServer.GetAuthorization impl) in
  let rpc := Handle rpc MethodAddCertificate (StorageAuthorityServer.AddCertificate impl) in
  let rpc := Handle rpc MethodNewRegistration (StorageAuthorityServer.NewRegistration impl) in
  let rpc := Handle rpc MethodNewPendingAuthorization (StorageAuthorityServer.NewPendingAuthorization impl) in
  let rpc := Handle rpc MethodUpdatePendingAuthorization (StorageAuthorityServer.UpdatePendingAuthorization impl) in
  let rpc := Handle rpc MethodFinalizeAuthorization (StorageAuthorityServer.FinalizeAuthorization impl) in
  let rpc := Handle rpc MethodGetCertificate (StorageAuthorityServer.GetCertificate impl) in
  let rpc := Handle rpc MethodGetCertificateByShortSerial (StorageAuthorityServer.GetCertificateByShortSerial impl) in
  let rpc := Handle rpc MethodGetCertificateStatus (StorageAuthorityServer.GetCertificateStatus impl) in
  let rpc := Handle rpc MethodMarkCertificateRevoked (StorageAuthorityServer.MarkCertificateRevoked impl) in
  let rpc := Handle rpc MethodAlreadyDeniedCSR (StorageAuthorityServer.AlreadyDeniedCSR impl) in
  (rpc, None).

End NewStorageAuthorityServer.

(** ** Storage Authority: client side *)

Module StorageAuthorityClient.
Section Stubs.
Context {C : Core} {L : Libs}.

Record t : Type := mk { rpc : RPCClient }.

Definition NewStorageAuthorityClient (client : RPCClient) : t * option error :=
  (mk client, None).

Variable cac : t.

Definition GetRegistration (id : Z) : M (Registration * option error) :=
  let intReq := mk_getRegistrationRequest id in
  let (data, err) := json_Marshal intReq in
  if notnil err then ret (zero, err)
  else
    '(jsonReg, err) <- DispatchSync (rpc cac) MethodGetRegistration data ;;
    if notnil err then ret (zero, err)
    else ret (json_Unmarshal jsonReg).

Definition GetRegistrationByKey (key : JsonWebKey) : M (Registration * option error) :=
  let (jsonKey, err) := MarshalJSON key in
  if notnil err then ret (zero, err)
  else
    '(jsonReg, err) <- DispatchSync (rpc cac) MethodGetRegistrationByKey jsonKey ;;
    if notnil err then ret (zero, err)
    else ret (json_Unmarshal jsonReg).

Definition GetAuthorization (id : string) : M (Authorization * option error) :=
  '(jsonAuthz, err) <- DispatchSync (rpc cac) MethodGetAuthorization (list_byte_of_string id) ;;
  if notnil err then ret (zero, err)
  else ret (json_Unmarshal jsonAuthz).

Definition GetCertificate (id : string) : M (bytes * option error) :=
  DispatchSync (rpc cac) MethodGetCertificate (list_byte_of_string id).

Definition GetCertificateByShortSerial (id : string) : M (bytes * option error) :=
  DispatchSync (rpc cac) MethodGetCertificateByShortSerial (list_byte_of_string id).

Definition GetCertificateStatus (id : string) : M (CertificateStatus * option error) :=
  '(jsonStatus, err) <- DispatchSync (rpc cac) MethodGetCertificateStatus (list_byte_of_string id) ;;
  if notnil err then ret (zero, err)
  else ret (json_Unmarshal jsonStatus).

Definition MarkCertificateRevoked (serial : string) (ocspResponse : bytes) (reasonCode : Z)
  : M (option error) :=
  let revokeReq := mk_markCertificateRevokedRequest serial ocspResponse reasonCode in
  let (data, err) := json_Marshal revokeReq in
  if notnil err then ret err
  else
    '(_, err) <- DispatchSync (rpc cac) MethodMarkCertificateRevoked data ;;
    ret err.

Definition UpdateRegistration (reg : Registration) : M (option error) :=
  let (jsonReg, err) := json_Marshal reg in
  if notnil err then ret err
  else
    '(_, err) <- DispatchSync (rpc cac) MethodUpdateRegistration jsonReg ;;
    ret err.

Definition NewRegistration (reg : Registration) : M (Registration * option error) :=
  let (jsonReg, err) := json_Marshal reg in
  if notnil err then ret (zero, Some (errors_New "NewRegistration RPC failed"))
  else
    '(response, err) <- DispatchSync (rpc cac) MethodNewRegistration jsonReg ;;
    if notnil err || len0 response then
      ret (zero, Some (errors_New "NewRegistration RPC failed"))
    else
      let (output, err) := json_Unmarshal response in
      if notnil err then ret (output, Some (errors_New "NewRegistration RPC failed"))
      else ret (output, None).

Definition NewPendingAuthorization (authz : Authorization) : M (Authorization * option error) :=
  let (jsonAuthz, err) := json_Marshal authz in
  if notnil err then ret (zero, err)
  else
    '(response, err) <- DispatchSync (rpc cac) MethodNewPendingAuthorization jsonAuthz ;;
    if notnil err || len0 response then
      ret (zero, Some (errors_New "NewPendingAuthorization RPC failed"))
    else
      let (output, err) := json_Unmarshal response in
      if notnil err then ret (output, Some (errors_New "NewRegistration RPC failed"))
      else ret (output, err).

Definition UpdatePendingAuthorization (authz : Authorization) : M (option error) :=
  let (jsonAuthz, err) := json_Marshal authz in
  if notnil err then ret err
  else
    '(_, err) <- DispatchSync (rpc cac) MethodUpdatePendingAuthorization jsonAuthz ;;
    ret err.

Definition FinalizeAuthorization (authz : Authorization) : M (option error) :=
  let (jsonAuthz, err) := json_Marshal authz in
  if notnil err then ret err
  else
    '(_, err) <- DispatchSync (rpc cac) MethodFinalizeAuthorization jsonAuthz ;;
    ret err.

Definition AddCertificate (cert : bytes) (regID : Z) : M (string * option error) :=
  let icReq := mk_addCertificateRequest cert regID in
  let (data, err) := json_Marshal icReq in
  if notnil err then ret (EmptyString, err)
  else
    '(response, err) <- DispatchSync (rpc cac) MethodAddCertificate data ;;
    if notnil err || len0 response then
      ret (EmptyString, Some (errors_New "AddCertificate RPC failed"))
    else ret (string_of_list_byte response, err).

(** The guard [err != nil || len(response) == 0] is written by cases on
    [response], so that [response[0]] is at hand where the guard is passed.
    [switch response[0]] has the cases 0 and 1 and no default: on another
    byte [exists] keeps its zero value. *)
Definition AlreadyDeniedCSR (names : list string) : M (bool * option error) :=
  let sliceReq := mk_alreadyDeniedCSRRequest names in
  let (data, err) := json_Marshal sliceReq in
  if notnil err then ret (false, err)
  else
    '(response, err) <- DispatchSync (rpc cac) MethodAlreadyDeniedCSR data ;;
    match response with
    | [] => ret (false, Some (errors_New "AlreadyDeniedCSR RPC failed"))
    | b0 :: _ =>
      if notnil err then ret (false, Some (errors_New "AlreadyDeniedCSR RPC failed"))
      else if Byte.eqb b0 x00 then ret (false, err)
      else if Byte.eqb b0 x01 then ret (true, err)
      else ret (false, err)
    end.

End Stubs.
End StorageAuthorityClient.

(** ** The stub methods as one catalog

    A stub call is a stub method with its arguments.  [stub_request] is the
    operation name and the encoded payload that the method hands to
    [DispatchSync] (with the error of the encoding, if any); [stub_run] runs
    the method on a client. *)

Section Catalog.
Context {C : Core} {L : Libs}.

Inductive StubCall : Type :=
| RA_NewRegistration (reg : Registration)
| RA_NewAuthorization (authz : Authorization) (regID : Z)
| RA_NewCertificate (cr : CertificateRequest) (regID : Z)
| RA_UpdateRegistration (base update : Registration)
| RA_UpdateAuthorization (authz : Authorization) (index : Z) (response : Challenge)
| RA_RevokeCertificate (cert : x509_Certificate)
| RA_OnValidationUpdate (authz : Authorization)
| VA_UpdateValidations (authz : Authorization) (index : Z)
| CA_IssueCertificate (csr : x509_CertificateRequest) (regID : Z) (earliestExpiry : time_Time)
| CA_RevokeCertificate (serial : string) (reasonCode : Z)
| CA_GenerateOCSP (signRequest : OCSPSigningRequest)
| SA_GetRegistration (id : Z)
| SA_GetRegistrationByKey (key : JsonWebKey)
| SA_GetAuthorization (id : string)
| SA_GetCertificate (id : string)
| SA_GetCertificateByShortSerial (id : string)
| SA_GetCertificateStatus (id : string)
| SA_MarkCertificateRevoked (serial : string) (ocspResponse : bytes) (reasonCode : Z)
| SA_UpdateRegistration (reg : Registration)
| SA_NewRegistration (reg : Registration)
| SA_NewPendingAuthorization (authz : Authorization)
| SA_UpdatePendingAuthorization (authz : Authorization)
| SA_FinalizeAuthorization (authz : Authorization)
| SA_AddCertificate (cert : bytes) (regID : Z)
| SA_AlreadyDeniedCSR (names : list string).

Definition stub_request (c : StubCall) : string * (bytes * option error) :=
  match c with
  | RA_NewRegistration reg =>
    (MethodNewRegistration, json_Marshal (mk_registrationRequest reg))
  | RA_NewAuthorization authz regID =>
    (MethodNewAuthorization, json_Marshal (mk_authorizationRequest authz regID))
  | RA_NewCertificate cr regID =>
    (MethodNewCertificate, json_Marshal (mk_certificateRequest cr regID))
  | RA_UpdateRegistration base update =>
    (MethodUpdateRegistration, json_Marshal (mk_updateRegistrationRequest base update))
  | RA_UpdateAuthorization authz index response =>
    (MethodUpdateAuthorization, json_Marshal (mk_updateAuthorizationRequest authz index response))
  | RA_RevokeCertificate cert => (MethodRevokeCertificate, (cert_Raw cert, None))
  | RA_OnValidationUpdate authz => (MethodOnValidationUpdate, json_Marshal authz)
  | VA_UpdateValidations authz index =>
    (MethodUpdateValidations, json_Marshal (mk_updateValidationsRequest authz index))
  | CA_IssueCertificate csr regID _ =>
    (MethodIssueCertificate, json_Marshal (mk_issueCertificateRequest (csr_Raw csr) regID zero))
  | CA_RevokeCertificate serial reasonCode =>
    (MethodRevokeCertificate, json_Marshal (mk_revokeCertificateRequest serial reasonCode))
  | CA_GenerateOCSP signRequest => (MethodGenerateOCSP, json_Marshal signRequest)
  | SA_GetRegistration id => (MethodGetRegistration, json_Marshal (mk_getRegistrationRequest id))
  | SA_GetRegistrationByKey key => (MethodGetRegistrationByKey, MarshalJSON key)
  | SA_GetAuthorization id => (MethodGetAuthorization, (list_byte_of_string id, None))
  | SA_GetCertificate id => (MethodGetCertificate, (list_byte_of_string id, None))
  | SA_GetCertificateByShortSerial id =>
    (MethodGetCertificateByShortSerial, (list_byte_of_string id, None))
  | SA_GetCertificateStatus id => (MethodGetCertificateStatus, (list_byte_of_string id, None))
  | SA_MarkCertificateRevoked serial ocspResponse reasonCode =>
    (MethodMarkCertificateRevoked,
     json_Marshal (mk_markCertificateRevokedRequest serial ocspResponse reasonCode))
  | SA_UpdateRegistration reg => (MethodUpdateRegistration, json_Marshal reg)
  | SA_NewRegistration reg => (MethodNewRegistration, json_Marshal reg)
  | SA_NewPendingAuthorization authz => (MethodNewPendingAuthorization, json_Marshal authz)
  | SA_UpdatePendingAuthorization authz => (MethodUpdatePendingAuthorization, json_Marshal authz)
  | SA_FinalizeAuthorization authz => (MethodFinalizeAuthorization, json_Marshal authz)
  | SA_AddCertificate cert regID =>
    (MethodAddCertificate, json_Marshal (mk_addCertificateRequest cert regID))
  | SA_AlreadyDeniedCSR names =>
    (MethodAlreadyDeniedCSR, json_Marshal (mk_alreadyDeniedCSRRequest names))
  end.

(** The type of the value a stub method returns beside its error; [unit]
    for a method that returns an error alone. *)
Definition Result (c : StubCall) : Type :=
  match c with
  | RA_NewRegistration _ | RA_UpdateRegistration _ _
  | SA_GetRegistration _ | SA_GetRegistrationByKey _ | SA_NewRegistration _ => Registration
  | RA_NewAuthorization _ _ | RA_UpdateAuthorization _ _ _
  | SA_GetAuthorization _ | SA_NewPendingAuthorization _ => Authorization
  | RA_NewCertificate _ _ | CA_IssueCertificate _ _ _ => Certificate
  | CA_GenerateOCSP _ | SA_GetCertificate _ | SA_GetCertificateByShortSerial _ => bytes
  | SA_GetCertificateStatus _ => CertificateStatus
  | SA_AddCertificate _ _ => string
  | SA_AlreadyDeniedCSR _ => bool
  | RA_RevokeCertificate _ | RA_OnValidationUpdate _ | VA_UpdateValidations _ _
  | CA_RevokeCertificate _ _ | SA_MarkCertificateRevoked _ _ _ | SA_UpdateRegistration _
  | SA_UpdatePendingAuthorization _ | SA_FinalizeAuthorization _ => unit
  end.

Definition error_only (m : M (option error)) : M (unit * option error) :=
  err <- m ;; ret (tt, err).

Definition error_of {A} (m : M (A * option error)) : M (option error) :=
  '(_, err) <- m ;; ret err.

(** The stub method of a call, run on a client. *)
Definition stub_run (client : RPCClient) (c : StubCall) : M (Result c * option error) :=
  let rac := RegistrationAuthorityClient.mk client in
  let vac := ValidationAuthorityClient.mk client in
  let cac := CertificateAuthorityClient.mk client in
  let sac := StorageAuthorityClient.mk client in
  match c return M (Result c * option error) with
  | RA_NewRegistration reg => RegistrationAuthorityClient.NewRegistration rac reg
  | RA_NewAuthorization authz regID =>
    RegistrationAuthorityClient.NewAuthorization rac authz regID
  | RA_NewCertificate cr regID => RegistrationAuthorityClient.NewCertificate rac cr regID
  | RA_UpdateRegistration base update =>
    RegistrationAuthorityClient.UpdateRegistration rac base update
  | RA_UpdateAuthorization authz index response =>
    RegistrationAuthorityClient.UpdateAuthorization rac authz index response
  | RA_RevokeCertificate cert =>
    error_only (RegistrationAuthorityClient.RevokeCertificate rac cert)
  | RA_OnValidationUpdate authz =>
    error_only (RegistrationAuthorityClient.OnValidationUpdate rac authz)
  | VA_UpdateValidations authz index =>
    error_only (ValidationAuthorityClient.UpdateValidations vac authz index)
  | CA_IssueCertificate csr regID earliestExpiry =>
    CertificateAuthorityClient.IssueCertificate cac csr regID earliestExpiry
  | CA_RevokeCertificate serial reasonCode =>
    error_only (CertificateAuthorityClient.RevokeCertificate cac serial reasonCode)
  | CA_GenerateOCSP signRequest => CertificateAuthorityClient.GenerateOCSP cac signRequest
  | SA_GetRegistration id => StorageAuthorityClient.GetRegistration sac id
  | SA_GetRegistrationByKey key => StorageAuthorityClient.GetRegistrationByKey sac key
  | SA_GetAuthorization id => StorageAuthorityClient.GetAuthorization sac id
  | SA_GetCertificate id => StorageAuthorityClient.GetCertificate sac id
  | SA_GetCertificateByShortSerial id => StorageAuthorityClient.GetCertificateByShortSerial sac id
  | SA_GetCertificateStatus id => StorageAuthorityClient.GetCertificateStatus sac id
  | SA_MarkCertificateRevoked serial ocspResponse reasonCode =>
    error_only (StorageAuthorityClient.MarkCertificateRevoked sac serial ocspResponse reasonCode)
  | SA_UpdateRegistration reg => error_only (StorageAuthorityClient.UpdateRegistration sac reg)
  | SA_NewRegistration reg => StorageAuthorityClient.NewRegistration sac reg
  | SA_NewPendingAuthorization authz => StorageAuthorityClient.NewPendingAuthorization sac authz
  | SA_UpdatePendingAuthorization authz =>
    error_only (StorageAuthorityClient.UpdatePendingAuthorization sac authz)
  | SA_FinalizeAuthorization authz =>
    error_only (StorageAuthorityClient.FinalizeAuthorization sac authz)
  | SA_AddCertificate cert regID => StorageAuthorityClient.AddCertificate sac cert regID
  | SA_AlreadyDeniedCSR names => StorageAuthorityClient.AlreadyDeniedCSR sac names
  end.

(** The error a stub call returns. *)
Definition stub_error (client : RPCClient) (c : StubCall) : M (option error) :=
  error_of (stub_run client c).

(** The stub methods that put an error of their own making in the place of
    the error of the transport, with the message of that error. *)
Definition generic_failure (c : StubCall) : option string :=
  match c with
  | SA_NewRegistration _ => Some "NewRegistration RPC failed"
  | SA_NewPendingAuthorization _ => Some "NewPendingAuthorization RPC failed"
  | SA_AddCertificate _ _ => Some "AddCertificate RPC failed"
  | SA_AlreadyDeniedCSR _ => Some "AlreadyDeniedCSR RPC failed"
  | _ => None
  end.

(** The error a stub method returns when the transport failed with [e]. *)
Definition surfaced (c : StubCall) (e : error) : error :=
  match generic_failure c with
  | Some msg => errors_New msg
  | None => e
  end.

Definition is_UpdateValidations (c : StubCall) : bool :=
  match c with VA_UpdateValidations _ _ => true | _ => false end.

(** The stub methods that take an empty payload without error for a failure
    of their own. *)
Definition guards_empty_response (c : StubCall) : bool :=
  match c with
  | RA_NewCertificate _ _ | CA_IssueCertificate _ _ _
  | SA_AddCertificate _ _ | SA_AlreadyDeniedCSR _ => true
  | _ => false
  end.

(** *** A stub call as a call of the implementation *)

(** The four implementations that the adapters are bound to. *)
Record Authorities : Type := mkAuthorities {
  the_ra : RegistrationAuthority.t;
  the_va : ValidationAuthority.t;
  the_ca : CertificateAuthority.t;
  the_sa : StorageAuthority.t
}.

Definition role_of (c : StubCall) : Role :=
  match c with
  | RA_NewRegistration _ | RA_NewAuthorization _ _ | RA_NewCertificate _ _
  | RA_UpdateRegistration _ _ | RA_UpdateAuthorization _ _ _ | RA_RevokeCertificate _
  | RA_OnValidationUpdate _ => RA
  | VA_UpdateValidations _ _ => VA
  | CA_IssueCertificate _ _ _ | CA_RevokeCertificate _ _ | CA_GenerateOCSP _ => CA
  | _ => SA
  end.

(** The endpoint on which the adapter of the role of a call is bound. *)
Definition adapter (a : Authorities) (c : StubCall) : RPCServer :=
  match role_of c with
  | RA => fst (NewRegistrationAuthorityServer [] (the_ra a))
  | VA => fst (NewValidationAuthorityServer [] (the_va a))
  | CA => fst (NewCertificateAuthorityServer [] (the_ca a))
  | SA => fst (NewStorageAuthorityServer [] (the_sa a))
  end.

Definition only_error {S} (r : option error * S) : (unit * option error) * S :=
  ((tt, fst r), snd r).

(** The call made in process: the method of the implementation on the
    arguments of the caller. *)
Definition local_call (a : Authorities) (c : StubCall)
  : ExtState -> (Result c * option error) * ExtState :=
  match c return ExtState -> (Result c * option error) * ExtState with
  | RA_NewRegistration reg => RegistrationAuthority.NewRegistration (the_ra a) reg
  | RA_NewAuthorization authz regID =>
    RegistrationAuthority.NewAuthorization (the_ra a) authz regID
  | RA_NewCertificate cr regID => RegistrationAuthority.NewCertificate (the_ra a) cr regID
  | RA_UpdateRegistration base update =>
    RegistrationAuthority.UpdateRegistration (the_ra a) base update
  | RA_UpdateAuthorization authz index response =>
    RegistrationAuthority.UpdateAuthorization (the_ra a) authz index response
  | RA_RevokeCertificate cert =>
    fun x => only_error (RegistrationAuthority.RevokeCertificate (the_ra a) cert x)
  | RA_OnValidationUpdate authz =>
    fun x => only_error (RegistrationAuthority.OnValidationUpdate (the_ra a) authz x)
  | VA_UpdateValidations authz index =>
    fun x => only_error (ValidationAuthority.UpdateValidations (the_va a) authz index x)
  | CA_IssueCertificate csr regID earliestExpiry =>
    CertificateAuthority.IssueCertificate (the_ca a) csr regID earliestExpiry
  | CA_RevokeCertificate serial reasonCode =>
    fun x => only_error (CertificateAuthority.RevokeCertificate (the_ca a) serial reasonCode x)
  | CA_GenerateOCSP signRequest => CertificateAuthority.GenerateOCSP (the_ca a) signRequest
  | SA_GetRegistration id => StorageAuthority.GetRegistration (the_sa a) id
  | SA_GetRegistrationByKey key => StorageAuthority.GetRegistrationByKey (the_sa a) key
  | SA_GetAuthorization id => StorageAuthority.GetAuthorization (the_sa a) id
  | SA_GetCertificate id => StorageAuthority.GetCertificate (the_sa a) id
  | SA_GetCertificateByShortSerial id => StorageAuthority.GetCertificateByShortSerial (the_sa a) id
  | SA_GetCertificateStatus id => StorageAuthority.GetCertificateStatus (the_sa a) id
  | SA_MarkCertificateRevoked serial ocspResponse reasonCode =>
    fun x => only_error
               (StorageAuthority.MarkCertificateRevoked (the_sa a) serial ocspResponse reasonCode x)
  | SA_UpdateRegistration reg =>
    fun x => only_error (StorageAuthority.UpdateRegistration (the_sa a) reg x)
  | SA_NewRegistration reg => StorageAuthority.NewRegistration (the_sa a) reg
  | SA_NewPendingAuthorization authz => StorageAuthority.NewPendingAuthorization (the_sa a) authz
  | SA_UpdatePendingAuthorization authz =>
    fun x => only_error (StorageAuthority.UpdatePendingAuthorization (the_sa a) authz x)
  | SA_FinalizeAuthorization authz =>
    fun x => only_error (StorageAuthority.FinalizeAuthorization (the_sa a) authz x)
  | SA_AddCertificate cert regID => StorageAuthority.AddCertificate (the_sa a) cert regID
  | SA_AlreadyDeniedCSR names => StorageAuthority.AlreadyDeniedCSR (the_sa a) names
  end.

(** The note that the adapter leaves in [calls] when it makes that call. *)
Definition as_call (c : StubCall) : Call :=
  match c with
  | RA_NewRegistration reg => mkCall RA "NewRegistration" (Obj reg)
  | RA_NewAuthorization authz regID => mkCall RA "NewAuthorization" (Obj (authz, regID))
  | RA_NewCertificate cr regID => mkCall RA "NewCertificate" (Obj (cr, regID))
  | RA_UpdateRegistration base update => mkCall RA "UpdateRegistration" (Obj (base, update))
  | RA_UpdateAuthorization authz index response =>
    mkCall RA "UpdateAuthorization" (Obj (authz, index, response))
  | RA_RevokeCertificate cert => mkCall RA "RevokeCertificate" (Obj cert)
  | RA_OnValidationUpdate authz => mkCall RA "OnValidationUpdate" (Obj authz)
  | VA_UpdateValidations authz index => mkCall VA "UpdateValidations" (Obj (authz, index))
  | CA_IssueCertificate csr regID earliestExpiry =>
    mkCall CA "IssueCertificate" (Obj (csr, regID, earliestExpiry))
  | CA_RevokeCertificate serial reasonCode =>
    mkCall CA "RevokeCertificate" (Obj (serial, reasonCode))
  | CA_GenerateOCSP signRequest => mkCall CA "GenerateOCSP" (Obj signRequest)
  | SA_GetRegistration id => mkCall SA "GetRegistration" (Obj id)
  | SA_GetRegistrationByKey key => mkCall SA "GetRegistrationByKey" (Obj key)
  | SA_GetAuthorization id => mkCall SA "GetAuthorization" (Obj id)
  | SA_GetCertificate id => mkCall SA "GetCertificate" (Obj id)
  | SA_GetCertificateByShortSerial id => mkCall SA "GetCertificateByShortSerial" (Obj id)
  | SA_GetCertificateStatus id => mkCall SA "GetCertificateStatus" (Obj id)
  | SA_MarkCertificateRevoked serial ocspResponse reasonCode =>
    mkCall SA "MarkCertificateRevoked" (Obj (serial, ocspResponse, reasonCode))
  | SA_UpdateRegistration reg => mkCall SA "UpdateRegistration" (Obj reg)
  | SA_NewRegistration reg => mkCall SA "NewRegistration" (Obj reg)
  | SA_NewPendingAuthorization authz => mkCall SA "NewPendingAuthorization" (Obj authz)
  | SA_UpdatePendingAuthorization authz => mkCall SA "UpdatePendingAuthorization" (Obj authz)
  | SA_FinalizeAuthorization authz => mkCall SA "FinalizeAuthorization" (Obj authz)
  | SA_AddCertificate cert regID => mkCall SA "AddCertificate" (Obj (cert, regID))
  | SA_AlreadyDeniedCSR names => mkCall SA "AlreadyDeniedCSR" (Obj names)
  end.

(** The progress lines that the adapter writes on the way of a call that
    succeeds: those of NewCertificate. *)
Definition progress_lines (c : StubCall) : list string :=
  match c with
  | RA_NewCertificate _ _ =>
    [" [.] Entering MethodNewCertificate";
     " [.] No problem unmarshaling request";
     " [.] No problem issuing new cert"]
  | _ => []
  end.

(** The state after the adapter made the call [c] with success and left the
    collaborators in [x]: no audit entry, the progress lines, one call. *)
Definition served (c : StubCall) (x : ExtState) (w : World) : World :=
  mkWorld (audit w) (info w ++ progress_lines c) (calls w ++ [as_call c]) x.

(** A call whose request, as the stub builds it, holds all the arguments of
    the caller: every call but an IssueCertificate with another
    earliestExpiry than the zero time. *)
Definition carries_arguments (c : StubCall) : Prop :=
  match c with
  | CA_IssueCertificate _ _ earliestExpiry => earliestExpiry = zero
  | _ => True
  end.

(** The decoding on the side of the adapter gives back the request of the
    call from its encoding [data]. *)
Definition decodes_back (c : StubCall) (data : bytes) : Prop :=
  match c with
  | RA_NewRegistration reg => json_Unmarshal data = (mk_registrationRequest reg, None)
  | RA_NewAuthorization authz regID =>
    json_Unmarshal data = (mk_authorizationRequest authz regID, None)
  | RA_NewCertificate cr regID => json_Unmarshal data = (mk_certificateRequest cr regID, None)
  | RA_UpdateRegistration base update =>
    json_Unmarshal data = (mk_updateRegistrationRequest base update, None)
  | RA_UpdateAuthorization authz index response =>
    json_Unmarshal data = (mk_updateAuthorizationRequest authz index response, None)
  | RA_RevokeCertificate cert => x509_ParseCertificates data = ([cert], None)
  | RA_OnValidationUpdate authz => json_Unmarshal data = (authz, None)
  | VA_UpdateValidations authz index =>
    json_Unmarshal data = (mk_updateValidationsRequest authz index, None)
  | CA_IssueCertificate csr regID _ =>
    json_Unmarshal data = (mk_issueCertificateRequest (csr_Raw csr) regID zero, None) /\
    x509_ParseCertificateRequest (csr_Raw csr) = inl csr
  | CA_RevokeCertificate serial reasonCode =>
    json_Unmarshal data = (mk_revokeCertificateRequest serial reasonCode, None)
  | CA_GenerateOCSP signRequest => json_Unmarshal data = (signRequest, None)
  | SA_GetRegistration id => json_Unmarshal data = (mk_getRegistrationRequest id, None)
  | SA_GetRegistrationByKey key => json_Unmarshal data = (key, None)
  | SA_GetAuthorization _ | SA_GetCertificate _ | SA_GetCertificateByShortSerial _
  | SA_GetCertificateStatus _ => True
  | SA_MarkCertificateRevoked serial ocspResponse reasonCode =>
    json_Unmarshal data = (mk_markCertificateRevokedRequest serial ocspResponse reasonCode, None)
  | SA_UpdateRegistration reg => json_Unmarshal data = (reg, None)
  | SA_NewRegistration reg => json_Unmarshal data = (reg, None)
  | SA_NewPendingAuthorization authz => json_Unmarshal data = (authz, None)
  | SA_UpdatePendingAuthorization authz => json_Unmarshal data = (authz, None)
  | SA_FinalizeAuthorization authz => json_Unmarshal data = (authz, None)
  | SA_AddCertificate cert regID =>
    json_Unmarshal data = (mk_addCertificateRequest cert regID, None)
  | SA_AlreadyDeniedCSR names => json_Unmarshal data = (mk_alreadyDeniedCSRRequest names, None)
  end.

(** A value that [encoding/json] encodes to a text that is not empty and
    decodes back from it. *)
Definition json_round_trips {T} `{JSON T} (v : T) : Prop :=
  exists b : bytes,
    json_Marshal v = (b, None) /\ len0 b = false /\ json_Unmarshal b = (v, None).

(** The decoding on the side of the stub gives back the result [v] of the
    call from its encoding by the adapter. *)
Definition gives_back (c : StubCall) : Result c -> Prop :=
  match c return Result c -> Prop with
  | RA_NewRegistration _ | RA_UpdateRegistration _ _
  | SA_GetRegistration _ | SA_GetRegistrationByKey _ | SA_NewRegistration _ =>
    fun v => json_round_trips (T := Registration) v
  | RA_NewAuthorization _ _ | RA_UpdateAuthorization _ _ _
  | SA_GetAuthorization _ | SA_NewPendingAuthorization _ =>
    fun v => json_round_trips (T := Authorization) v
  | RA_NewCertificate _ _ | CA_IssueCertificate _ _ _ =>
    fun v => json_round_trips (T := Certificate) v
  | SA_GetCertificateStatus _ => fun v => json_round_trips (T := CertificateStatus) v
  | SA_AddCertificate _ _ => fun id => len0 (list_byte_of_string id) = false
  | CA_GenerateOCSP _ | SA_GetCertificate _ | SA_GetCertificateByShortSerial _ => fun _ => True
  | SA_AlreadyDeniedCSR _ => fun _ => True
  | RA_RevokeCertificate _ | RA_OnValidationUpdate _ | VA_UpdateValidations _ _
  | CA_RevokeCertificate _ _ | SA_MarkCertificateRevoked _ _ _ | SA_UpdateRegistration _
  | SA_UpdatePendingAuthorization _ | SA_FinalizeAuthorization _ => fun _ => True
  end.

End Catalog.

(** ** The outcome of a payload that does not decode

    [improper h name req e w]: the handler [h], run on the payload [req] in
    the state [w], returns the error [e] and no payload, and leaves the state
    [w] with one more audit entry, an Improper Message under [name] that
    holds [e] and [req].  The calls of the implementation are those of
    [w]. *)

Section Outcome.
Context {C : Core}.

Definition improper (h : Handler) (name : string) (req : bytes) (e : error) (w : World) : Prop :=
  h req w = (([], Some e), audited (mkAudit ImproperMessage name (Some e) (Obj req)) w).

End Outcome.

(** ** Outcomes of the stubs and of the adapters by call *)

Section Outcomes.
Context {C : Core} {L : Libs}.

(** All the handlers that the four constructors register, each on an endpoint
    of its own. *)
Definition bound (a : Authorities) : RPCServer :=
  fst (NewRegistrationAuthorityServer [] (the_ra a)) ++
  fst (NewValidationAuthorityServer [] (the_va a)) ++
  fst (NewCertificateAuthorityServer [] (the_ca a)) ++
  fst (NewStorageAuthorityServer [] (the_sa a)).

(** The transport [client] hands the payload [data], dispatched under [name]
    in the state [w], to the handler that [rpc] holds under that name, and
    hands back what the handler returns. *)
Definition delivers (client : RPCClient) (rpc : RPCServer) (name : string) (data : bytes)
  (w : World) : Prop :=
  exists h : Handler,
    registered rpc name = Some h /\ DispatchSync client name data w = h data w.

(** The zero value of the result of a call. *)
Definition zero_result (c : StubCall) : Result c :=
  match c return Result c with
  | RA_NewRegistration _ | RA_UpdateRegistration _ _
  | SA_GetRegistration _ | SA_GetRegistrationByKey _ | SA_NewRegistration _ =>
    (zero : Registration)
  | RA_NewAuthorization _ _ | RA_UpdateAuthorization _ _ _
  | SA_GetAuthorization _ | SA_NewPendingAuthorization _ => (zero : Authorization)
  | RA_NewCertificate _ _ | CA_IssueCertificate _ _ _ => (zero : Certificate)
  | CA_GenerateOCSP _ | SA_GetCertificate _ | SA_GetCertificateByShortSerial _ => ([] : bytes)
  | SA_GetCertificateStatus _ => (zero : CertificateStatus)
  | SA_AddCertificate _ _ => EmptyString
  | SA_AlreadyDeniedCSR _ => false
  | RA_RevokeCertificate _ | RA_OnValidationUpdate _ | VA_UpdateValidations _ _
  | CA_RevokeCertificate _ _ | SA_MarkCertificateRevoked _ _ _ | SA_UpdateRegistration _
  | SA_UpdatePendingAuthorization _ | SA_FinalizeAuthorization _ => tt
  end.

(** The stub methods of the Registration Authority client that return at the
    guard [err != nil || len(data) == 0] with the error they hold. *)
Definition returns_on_empty_response (c : StubCall) : bool :=
  match c with
  | RA_NewRegistration _ | RA_NewAuthorization _ _
  | RA_UpdateRegistration _ _ | RA_UpdateAuthorization _ _ _ => true
  | _ => false
  end.

(** The error a stub method returns when its request does not encode with
    the error [e]. *)
Definition encode_failure_error (c : StubCall) (e : error) : error :=
  match c with
  | SA_NewRegistration _ => errors_New "NewRegistration RPC failed"
  | _ => e
  end.

(** The state a stub method leaves when its request does not encode: two
    methods of the Certificate Authority client write an audit entry. *)
Definition encode_failure_state (c : StubCall) (e : error) (w : World) : World :=
  match c with
  | CA_RevokeCertificate serial reasonCode =>
    audited (mkAudit ErrorCondition MethodRevokeCertificate (Some e)
               (Obj (mk_revokeCertificateRequest serial reasonCode))) w
  | CA_GenerateOCSP signRequest =>
    audited (mkAudit ErrorCondition MethodGetRegistration (Some e) (Obj signRequest)) w
  | _ => w
  end.

(** The error with which [json.Unmarshal] decodes the response [resp] in the
    stub method of a call; [None] for a method that does not decode its
    response with [json.Unmarshal]. *)
Definition response_decoding (c : StubCall) (resp : bytes) : option (option error) :=
  match c with
  | RA_NewRegistration _ | RA_UpdateRegistration _ _
  | SA_GetRegistration _ | SA_GetRegistrationByKey _ | SA_NewRegistration _ =>
    Some (snd (json_Unmarshal (T := Registration) resp))
  | RA_NewAuthorization _ _ | RA_UpdateAuthorization _ _ _
  | SA_GetAuthorization _ | SA_NewPendingAuthorization _ =>
    Some (snd (json_Unmarshal (T := Authorization) resp))
  | RA_NewCertificate _ _ | CA_IssueCertificate _ _ _ =>
    Some (snd (json_Unmarshal (T := Certificate) resp))
  | SA_GetCertificateStatus _ => Some (snd (json_Unmarshal (T := CertificateStatus) resp))
  | _ => None
  end.

(** The error a stub method returns when its response does not decode with
    the error [e]. *)
Definition decode_failure_error (c : StubCall) (e : error) : error :=
  match c with
  | SA_NewRegistration _ | SA_NewPendingAuthorization _ =>
    errors_New "NewRegistration RPC failed"
  | _ => e
  end.

(** The lookup by short serial that found no row. *)
Definition is_not_found (c : StubCall) (e : error) : bool :=
  match c with
  | SA_GetCertificateByShortSerial _ => error_eqb e sql_ErrNoRows
  | _ => false
  end.

(** The error an adapter returns to the transport when the implementation
    failed with [e]. *)
Definition returned (c : StubCall) (e : error) : option error :=
  match c with
  | CA_RevokeCertificate _ _ => None
  | _ => Some e
  end.

(** The error the caller of a stub method gets when the implementation
    behind a transport that delivers failed with [e]. *)
Definition seen_by_caller (c : StubCall) (e : error) : option error :=
  match c with
  | CA_RevokeCertificate _ _ | VA_UpdateValidations _ _ => None
  | _ => Some (surfaced c e)
  end.

End Outcomes.

(** ** Configuration of the HTTP prober (observer/probers/http/http_conf.go) *)

Module HTTP.

(** [HTTPConf], with [int] as [Z]. *)
Record HTTPConf : Type := mkHTTPConf {
  URL : string;
  RCodes : list Z;
  UserAgent : string
}.

(** [HTTPProbe], declared beside http_conf.go; [MakeProber] builds it from
    its three fields in this order. *)
Record HTTPProbe : Type := mkHTTPProbe {
  url : string;
  rcodes : list Z;
  useragent : string
}.

(** The functions of net/url, fmt and yaml that the configuration calls.
    [url_Parse] is [url.Parse], a URL or else an error; [fmt_q] and
    [fmt_q_ints] are the verb [%q] on a string and on a slice of [int];
    [fmt_d] is the verb [%d]. *)
Class Env : Type := {
  url_URL : Type;
  url_Parse : string -> url_URL + error;
  Scheme : url_URL -> string;
  fmt_q : string -> string;
  fmt_q_ints : list Z -> string;
  fmt_d : Z -> string;
  Collectors : Type;   (* map[string]*prometheus.Collector *)
  yaml_Unmarshal : bytes -> HTTPConf * option error
}.

Section Conf.
Context {E : Env}.

Definition UnmarshalSettings (c : HTTPConf) (settings : bytes)
  : option HTTPConf * option error :=
  let (conf, err) := yaml_Unmarshal settings in
  match err with
  | Some _ => (None, err)
  | None => (Some conf, None)
  end.

(** [fmt.Errorf] without the verb [%w] is [errors.New] of the text. *)
Definition validateURL (c : HTTPConf) : option error :=
  match url_Parse (URL c) with
  | inr _ =>
    Some (errors_New ("invalid 'url', got: " ++ fmt_q (URL c) ++ ", expected a valid url"))
  | inl u =>
    if String.eqb (Scheme u) "" then
      Some (errors_New ("invalid 'url', got: " ++ fmt_q (URL c) ++ ", missing scheme"))
    else None
  end.

(** The loop of [validateRCodes] over the codes. *)
Fixpoint check_rcodes (codes : list Z) : option error :=
  match codes with
  | [] => None
  | c :: rest =>
    if (c <? 100)%Z || (c >? 599)%Z then
      Some (errors_New
              ("'rcodes' contains an invalid HTTP response code, '" ++ fmt_d c ++ "'"))
    else check_rcodes rest
  end.

Definition validateRCodes (c : HTTPConf) : option error :=
  match RCodes c with
  | [] =>
    Some (errors_New
            ("invalid 'rcodes', got: " ++ fmt_q_ints (RCodes c) ++ ", please specify at least one"))
  | _ :: _ => check_rcodes (RCodes c)
  end.

Definition default_UserAgent : string := "letsencrypt/boulder-observer-http-client".

Definition MakeProber (c : HTTPConf) (_ : Collectors) : option HTTPProbe * option error :=
  let err := validateURL c in
  if notnil err then (None, err)
  else
    let err := validateRCodes c in
    if notnil err then (None, err)
    else
      let c := if String.eqb (UserAgent c) "" then
                 mkHTTPConf (URL c) (RCodes c) default_UserAgent
               else c in
      (Some (mkHTTPProbe (URL c) (RCodes c) (UserAgent c)), None).

(** A code that [validateRCodes] accepts. *)
Definition in_range (c : Z) : Prop := (100 <= c <= 599)%Z.

End Conf.
End HTTP.

(** ** A small instance

    An instance of the classes and of the four interfaces on which the
    wrappers run by computation: the values of the other packages are
    numbers and byte strings, the codec writes the fields of a value one
    after the other, each behind a byte that holds its length, numbers being
    one byte wide. *)

Module Toy.

Definition unsupported : error := foreign_error "json: unsupported value".
Definition syntax_error : error := foreign_error "unexpected end of JSON input".
Definition type_error : error := foreign_error "json: cannot unmarshal into Go value".

Definition enc_field (f : bytes) : option bytes :=
  match Byte.of_nat (List.length f) with
  | Some n => Some (n :: f)
  | None => None
  end.

Fixpoint frame (fs : list bytes) : option bytes :=
  match fs with
  | [] => Some []
  | f :: rest =>
    match enc_field f, frame rest with
    | Some a, Some b => Some (a ++ b)
    | _, _ => None
    end
  end.

Fixpoint unframe_fuel (fuel : nat) (b : bytes) : option (list bytes) :=
  match b with
  | [] => Some []
  | n :: rest =>
    match fuel with
    | O => None
    | S fuel' =>
      let k := Byte.to_nat n in
      if (List.length rest <? k)%nat then None
      else match unframe_fuel fuel' (skipn k rest) with
           | Some fs => Some (firstn k rest :: fs)
           | None => None
           end
    end
  end.

Definition unframe (b : bytes) : option (list bytes) := unframe_fuel (List.length b) b.

Definition enc_Z (z : Z) : option bytes :=
  if (0 <=? z)%Z && (z <? 256)%Z then
    match Byte.of_nat (Z.to_nat z) with
    | Some b => Some [b]
    | None => None
    end
  else None.

Definition dec_Z (b : bytes) : option Z :=
  match b with
  | [x] => Some (Z.of_nat (Byte.to_nat x))
  | _ => None
  end.

Definition enc_names (names : list string) : option bytes :=
  frame (map list_byte_of_string names).

Definition dec_names (b : bytes) : option (list string) :=
  match unframe b with
  | Some fs => Some (map string_of_list_byte fs)
  | None => None
  end.

(** All the fields, if each of them could be written. *)
Fixpoint all_fields (fs : list (option bytes)) : option (list bytes) :=
  match fs with
  | [] => Some []
  | Some f :: rest =>
    match all_fields rest with
    | Some fs' => Some (f :: fs')
    | None => None
    end
  | None :: _ => None
  end.

Definition codec {T} (z : T) (to : T -> list (option bytes))
  (from : list bytes -> option T) : JSON T :=
  {| json_Marshal v :=
       match all_fields (to v) with
       | Some fs =>
         match frame fs with
         | Some b => (b, None)
         | None => ([], Some unsupported)
         end
       | None => ([], Some unsupported)
       end;
     json_Unmarshal b :=
       match unframe b with
       | Some fs =>
         match from fs with
         | Some v => (v, None)
         | None => (z, Some type_error)
         end
       | None => (z, Some syntax_error)
       end |}.

Definition core : Core :=
  {| Registration := Z;
     Authorization := Z;
     Challenge := Z;
     CertificateRequest := bytes;
     Certificate := Z;
     CertificateStatus := Z;
     OCSPSigningRequest := Z;
     x509_Certificate := bytes;
     x509_CertificateRequest := bytes;
     JsonWebKey := Z;
     time_Time := Z;
     ExtState := nat |}.

Definition json_Z : JSON Z :=
  codec 0%Z (fun v => [enc_Z v])
    (fun fs => match fs with [a] => dec_Z a | _ => None end).

Definition json_ZZ {T} (z : T) (mk : Z -> Z -> T) (p1 p2 : T -> Z) : JSON T :=
  codec z (fun v => [enc_Z (p1 v); enc_Z (p2 v)])
    (fun fs => match fs with
               | [a; b] =>
                 match dec_Z a, dec_Z b with
                 | Some x, Some y => Some (mk x y)
                 | _, _ => None
                 end
               | _ => None
               end).

(** An ASN.1 value is taken to be a byte string that starts with the tag of
    a sequence. *)
Definition is_der (b : bytes) : bool :=
  match b with
  | x :: _ => Byte.eqb x x30
  | [] => false
  end.

Definition asn1_error : error := foreign_error "asn1: structure error".

Definition libs : @Libs core :=
  @Build_Libs core
    (0%Z : @Registration core) (0%Z : @Authorization core) (0%Z : @Certificate core)
    (0%Z : @CertificateStatus core) (0%Z : @time_Time core)
    json_Z json_Z json_Z json_Z json_Z json_Z
    (* registrationRequest *)
    (codec (@mk_registrationRequest core 0%Z)
       (fun v => [enc_Z (@rr_Reg core v)])
       (fun fs => match fs with
                  | [a] => option_map (@mk_registrationRequest core) (dec_Z a)
                  | _ => None
                  end))
    (* authorizationRequest *)
    (json_ZZ (@mk_authorizationRequest core 0%Z 0%Z) (@mk_authorizationRequest core)
       (@ar_Authz core) (@ar_RegID core))
    (* certificateRequest *)
    (codec (@mk_certificateRequest core [] 0%Z)
       (fun v => [Some (@cr_Req core v); enc_Z (@cr_RegID core v)])
       (fun fs => match fs with
                  | [a; b] => option_map (@mk_certificateRequest core a) (dec_Z b)
                  | _ => None
                  end))
    (* updateRegistrationRequest *)
    (json_ZZ (@mk_updateRegistrationRequest core 0%Z 0%Z) (@mk_updateRegistrationRequest core)
       (@ur_Base core) (@ur_Update core))
    (* updateAuthorizationRequest *)
    (codec (@mk_updateAuthorizationRequest core 0%Z 0%Z 0%Z)
       (fun v => [enc_Z (@ua_Authz core v); enc_Z (@ua_Index core v); enc_Z (@ua_Response core v)])
       (fun fs => match fs with
                  | [a; b; c] =>
                    match dec_Z a, dec_Z b, dec_Z c with
                    | Some x, Some y, Some z => Some (@mk_updateAuthorizationRequest core x y z)
                    | _, _, _ => None
                    end
                  | _ => None
                  end))
    (* updateValidationsRequest *)
    (json_ZZ (@mk_updateValidationsRequest core 0%Z 0%Z) (@mk_updateValidationsRequest core)
       (@uv_Authz core) (@uv_Index core))
    (* issueCertificateRequest *)
    (codec (@mk_issueCertificateRequest core [] 0%Z 0%Z)
       (fun v => [Some (@ic_Bytes core v); enc_Z (@ic_RegID core v);
                  enc_Z (@ic_EarliestExpiry core v)])
       (fun fs => match fs with
                  | [a; b; c] =>
                    match dec_Z b, dec_Z c with
                    | Some y, Some z => Some (@mk_issueCertificateRequest core a y z)
                    | _, _ => None
                    end
                  | _ => None
                  end))
    (* revokeCertificateRequest *)
    (codec (mk_revokeCertificateRequest "" 0%Z)
       (fun v => [Some (list_byte_of_string (rc_Serial v)); enc_Z (rc_ReasonCode v)])
       (fun fs => match fs with
                  | [a; b] =>
                    option_map (mk_revokeCertificateRequest (string_of_list_byte a)) (dec_Z b)
                  | _ => None
                  end))
    (* getRegistrationRequest *)
    (codec (mk_getRegistrationRequest 0%Z)
       (fun v => [enc_Z (gr_ID v)])
       (fun fs => match fs with
                  | [a] => option_map mk_getRegistrationRequest (dec_Z a)
                  | _ => None
                  end))
    (* addCertificateRequest *)
    (codec (mk_addCertificateRequest [] 0%Z)
       (fun v => [Some (ac_Bytes v); enc_Z (ac_RegID v)])
       (fun fs => match fs with
                  | [a; b] => option_map (mk_addCertificateRequest a) (dec_Z b)
                  | _ => None
                  end))
    (* markCertificateRevokedRequest *)
    (codec (mk_markCertificateRevokedRequest "" [] 0%Z)
       (fun v => [Some (list_byte_of_string (mr_Serial v)); Some (mr_OCSPResponse v);
                  enc_Z (mr_ReasonCode v)])
       (fun fs => match fs with
                  | [a; b; c] =>
                    option_map (mk_markCertificateRevokedRequest (string_of_list_byte a) b)
                      (dec_Z c)
                  | _ => None
                  end))
    (* alreadyDeniedCSRRequest *)
    (codec (mk_alreadyDeniedCSRRequest [])
       (fun v => [enc_names (ad_Names v)])
       (fun fs => match fs with
                  | [a] => option_map mk_alreadyDeniedCSRRequest (dec_names a)
                  | _ => None
                  end))
    (* key.MarshalJSON *)
    (@json_Marshal Z json_Z)
    (* x509.ParseCertificates *)
    (fun b => match b with
              | [] => ([], None)
              | _ => if is_der b then ([b], None) else ([], Some asn1_error)
              end)
    (* x509.ParseCertificateRequest *)
    (fun b => if is_der b then inl b else inr asn1_error)
    (fun cert => cert)
    (fun csr => csr).

(** Implementations of the four interfaces.  The state of the collaborators
    is the number of the changes made so far. *)

Definition ra : @RegistrationAuthority.t core :=
  @RegistrationAuthority.mk core
    (fun reg x => ((reg + 1, None), S x)%Z)
    (fun authz regID x => ((authz + regID, None), S x)%Z)
    (fun cr regID x => ((regID, None), S x))
    (fun base update x => ((update, None), S x))
    (fun authz index response x =>
       if (index <? 0)%Z then ((0%Z, Some (foreign_error "no such challenge")), x)
       else ((authz + response, None), S x)%Z)
    (fun cert x => (None, S x))
    (fun authz x => (None, S x)).

Definition va : @ValidationAuthority.t core :=
  @ValidationAuthority.mk core (fun authz index x => (None, S x)).

(** The certificate that is issued is the number [regID + earliestExpiry]. *)
Definition ca : @CertificateAuthority.t core :=
  @CertificateAuthority.mk core
    (fun csr regID earliestExpiry x => ((regID + earliestExpiry, None), S x)%Z)
    (fun serial reasonCode x =>
       if String.eqb serial "" then (Some (foreign_error "no such certificate"), x)
       else (None, S x))
    (fun signRequest x => (([x30], None), x)).

(** The lookups by serial find no row for the empty serial, and the lookup by
    short serial fails on the serial "!" with another error. *)
Definition sa : @StorageAuthority.t core :=
  @StorageAuthority.mk core
    (fun id x => ((id, None), x))
    (fun key x => ((key, None), x))
    (fun id x => ((Z.of_nat (String.length id), None), x))
    (fun id x =>
       if String.eqb id "" then (([], Some sql_ErrNoRows), x)
       else ((x30 :: list_byte_of_string id, None), x))
    (fun id x =>
       if String.eqb id "" then (([], Some sql_ErrNoRows), x)
       else if String.eqb id "!" then (([], Some (foreign_error "database is locked")), x)
       else ((x30 :: list_byte_of_string id, None), x))
    (fun id x => ((0%Z, None), x))
    (fun serial ocspResponse reasonCode x => (None, S x))
    (fun reg x => (None, S x))
    (fun reg x => ((reg + 1, None), S x)%Z)
    (fun authz x => ((authz, None), S x))
    (fun authz x => (None, S x))
    (fun authz x => (None, S x))
    (fun cert regID x => (("0a", None), S x))
    (fun names x => ((existsb (String.eqb "denied.example") names, None), x)).

(** A transport that answers every dispatch with the same result. *)
Definition canned (r : bytes * option error) : @RPCClient core :=
  @mkRPCClient core (fun _ _ => ret r).

Definition connection_reset : error := foreign_error "connection reset by peer".

(** The state before anything happened. *)
Definition w0 : @World core := @mkWorld core [] [] [] O.

Definition rac (client : @RPCClient core) := @RegistrationAuthorityClient.mk core client.
Definition vac (client : @RPCClient core) := @ValidationAuthorityClient.mk core client.
Definition cac (client : @RPCClient core) := @CertificateAuthorityClient.mk core client.
Definition sac (client : @RPCClient core) := @StorageAuthorityClient.mk core client.

(** The payload of one byte 7 announces a field of seven bytes and stops. *)
Definition truncated : bytes := [x07].

(** An IssueCertificate request for registration 200 with the expiry 100,
    for which the implementation issues the certificate 300, a number that
    the codec does not encode. *)
Definition issue_200_100 : bytes :=
  fst (@json_Marshal _ (@json_issueCertificateRequest core libs)
         (@mk_issueCertificateRequest core [x30; x01] 200%Z 100%Z)).

(** The request of AlreadyDeniedCSR for one name. *)
Definition one_name : bytes :=
  fst (@json_Marshal _ (@json_alreadyDeniedCSRRequest core libs)
         (mk_alreadyDeniedCSRRequest ["a.example"])).

Definition failing : @RPCClient core := canned ([], Some connection_reset).
Definition empty_success : @RPCClient core := canned ([], None).

Definition authorities : @Authorities core := @mkAuthorities core ra va ca sa.

(** A registration whose number the codec does not encode. *)
Definition too_large : Z := 300%Z.

End Toy.

(** An instance for the configuration of the HTTP prober: a URL is parsed to
    the text before its first colon, which is its scheme, and a text that
    starts with a colon is not a URL. *)
Module ToyHTTP.

Fixpoint scheme_of (s : string) : option string :=
  match s with
  | EmptyString => None
  | String c rest =>
    if Ascii.eqb c ":" then Some EmptyString
    else match scheme_of rest with
         | Some p => Some (String c p)
         | None => None
         end
  end.

Definition parse (s : string) : string + error :=
  match scheme_of s with
  | Some EmptyString => inr (foreign_error "parse: missing protocol scheme")
  | Some p => inl p
  | None => inl EmptyString
  end.

Definition decimal (z : Z) : string := NilZero.string_of_int (Z.to_int z).

Definition quote : string := String (Ascii.ascii_of_nat 34) EmptyString.

Definition conf_of_fields (fs : list bytes) : option HTTP.HTTPConf :=
  match fs with
  | [u; r; a] =>
    Some (HTTP.mkHTTPConf (string_of_list_byte u)
            (map (fun b => (100 * Z.of_nat (Byte.to_nat b))%Z) r)
            (string_of_list_byte a))
  | _ => None
  end.

Definition env : HTTP.Env :=
  {| HTTP.url_URL := string;
     HTTP.url_Parse := parse;
     HTTP.Scheme := fun u => u;
     HTTP.fmt_q := fun s => (quote ++ s ++ quote)%string;
     HTTP.fmt_q_ints := fun l => ("[" ++ String.concat " " (map decimal l) ++ "]")%string;
     HTTP.fmt_d := decimal;
     HTTP.Collectors := unit;
     HTTP.yaml_Unmarshal := fun b =>
       match Toy.unframe b with
       | Some fs =>
         match conf_of_fields fs with
         | Some c => (c, None)
         | None => (HTTP.mkHTTPConf "" [] "", Some Toy.type_error)
         end
       | None => (HTTP.mkHTTPConf "" [] "", Some Toy.syntax_error)
       end |}.

Definition example_conf : HTTP.HTTPConf :=
  HTTP.mkHTTPConf "http://example.com" [200%Z] "".

(** The settings document of [example_conf]. *)
Definition example_settings : bytes :=
  match Toy.frame [list_byte_of_string "http://example.com"; [x02]; []] with
  | Some b => b
  | None => []
  end.

(** A configuration whose second code is the first one out of range. *)
Definition bad_conf : HTTP.HTTPConf :=
  HTTP.mkHTTPConf "http://example.com" [200%Z; 1000%Z; 7%Z] "probe".

End ToyHTTP.

(** ** Proof steps *)

Ltac run :=
  unfold bind, ret, improperMessage, errorCondition, log_Audit, log_Info, invoke,
    audited, called; simpl.

Create HintDb stubs.

#[export] Hint Unfold
  stub_error stub_run error_of error_only
  RegistrationAuthorityClient.NewRegistration RegistrationAuthorityClient.NewAuthorization
  RegistrationAuthorityClient.NewCertificate RegistrationAuthorityClient.UpdateRegistration
  RegistrationAuthorityClient.UpdateAuthorization RegistrationAuthorityClient.RevokeCertificate
  RegistrationAuthorityClient.OnValidationUpdate
  ValidationAuthorityClient.UpdateValidations
  CertificateAuthorityClient.IssueCertificate CertificateAuthorityClient.RevokeCertificate
  CertificateAuthorityClient.GenerateOCSP
  StorageAuthorityClient.GetRegistration StorageAuthorityClient.GetRegistrationByKey
  StorageAuthorityClient.GetAuthorization StorageAuthorityClient.GetCertificate
  StorageAuthorityClient.GetCertificateByShortSerial StorageAuthorityClient.GetCertificateStatus
  StorageAuthorityClient.MarkCertificateRevoked StorageAuthorityClient.UpdateRegistration
  StorageAuthorityClient.NewRegistration StorageAuthorityClient.NewPendingAuthorization
  StorageAuthorityClient.UpdatePendingAuthorization StorageAuthorityClient.FinalizeAuthorization
  StorageAuthorityClient.AddCertificate StorageAuthorityClient.AlreadyDeniedCSR
  RegistrationAuthorityClient.rpc ValidationAuthorityClient.rpc
  CertificateAuthorityClient.rpc StorageAuthorityClient.rpc : stubs.

(** Runs a stub method up to its dispatch: [Hreq] tells the request it
    encodes, [Hdisp] what the dispatch of that request returns. *)
Ltac dispatch Hreq Hdisp :=
  simpl in Hreq; inversion Hreq; subst; clear Hreq;
  autounfold with stubs; simpl;
  repeat match goal with
         | H : ?m = (_, None) |- context [?m] => rewrite H; simpl
         end;
  run; rewrite Hdisp; simpl.

Create HintDb handlers.

#[export] Hint Unfold
  improper
  RegistrationAuthorityServer.NewRegistration RegistrationAuthorityServer.NewAuthorization
  RegistrationAuthorityServer.NewCertificate RegistrationAuthorityServer.UpdateRegistration
  RegistrationAuthorityServer.UpdateAuthorization RegistrationAuthorityServer.RevokeCertificate
  RegistrationAuthorityServer.OnValidationUpdate
  ValidationAuthorityServer.UpdateValidations
  CertificateAuthorityServer.IssueCertificate CertificateAuthorityServer.RevokeCertificate
  CertificateAuthorityServer.GenerateOCSP
  StorageAuthorityServer.UpdateRegistration StorageAuthorityServer.GetRegistration
  StorageAuthorityServer.GetRegistrationByKey StorageAuthorityServer.GetAuthorization
  StorageAuthorityServer.AddCertificate StorageAuthorityServer.NewRegistration
  StorageAuthorityServer.NewPendingAuthorization StorageAuthorityServer.UpdatePendingAuthorization
  StorageAuthorityServer.FinalizeAuthorization StorageAuthorityServer.GetCertificate
  StorageAuthorityServer.GetCertificateByShortSerial StorageAuthorityServer.GetCertificateStatus
  StorageAuthorityServer.MarkCertificateRevoked StorageAuthorityServer.AlreadyDeniedCSR : handlers.

(** Case analysis on what the library functions and the implementation
    return, from the inside of a term to the outside. *)
Ltac innermost m :=
  lazymatch m with
  | context [let (_, _) := _ in _] => fail
  | context [match _ with inl _ => _ | inr _ => _ end] => fail
  | context [if _ then _ else _] => fail
  | _ => idtac
  end.

Ltac split_cases :=
  repeat match goal with
         | |- context [notnil ?o] => is_var o; destruct o; simpl
         | |- context [let (_, _) := ?m in _] => innermost m; destruct m; simpl
         | |- context [match ?m with inl _ => _ | inr _ => _ end] =>
           innermost m; destruct m; simpl
         | |- context [match ?m with nil => _ | cons _ _ => _ end] =>
           innermost m; destruct m; simpl
         | |- context [match ?m with Some _ => _ | None => _ end] =>
           innermost m; destruct m; simpl
         | |- context [if ?m then _ else _] => innermost m; destruct m; simpl
         end.

Ltac finish :=
  rewrite ?app_nil_r; simpl;
  repeat match goal with |- _ /\ _ => split end;
  intros; try reflexivity; try lia; try congruence.

(** The audit entries and the calls that a handler added, none or one of
    each. *)
Ltac grown :=
  first [ solve [exists (@nil AuditEntry), (@nil Call); finish]
        | solve [eexists (cons _ nil), (@nil Call); finish]
        | solve [exists (@nil AuditEntry); eexists (cons _ nil); finish]
        | solve [eexists (cons _ nil), (cons _ nil); finish] ].

(** * Properties *)

Lemma error_eqb_eq : forall a b : error, error_eqb a b = true <-> a = b.
Proof.
  intros a b; split.
  - destruct a, b; simpl; intro H; try discriminate; try reflexivity;
      apply String.eqb_eq in H; now subst.
  - intros <-; destruct a; simpl; try reflexivity; apply String.eqb_refl.
Qed.

Lemma error_eqb_neq : forall a b : error, error_eqb a b = false <-> a <> b.
Proof.
  intros a b; split.
  - intros H E; apply error_eqb_eq in E; congruence.
  - intros H; destruct (error_eqb a b) eqn:E; [apply error_eqb_eq in E; contradiction | reflexivity].
Qed.

(** Two byte values are told apart by [Byte.eqb]. *)
Lemma byte_eqb_eq : forall a b : byte, Byte.eqb a b = true <-> a = b.
Proof.
  intros a b; split.
  - apply Byte.byte_dec_bl.
  - apply Byte.byte_dec_lb.
Qed.

Section ServerProperties.
Context {C : Core} {L : Libs}.

(** C10.  The four server constructors return a nil error, whatever the
    endpoint and the implementation they are given. *)
Theorem server_constructors_return_nil :
  forall (rpc : RPCServer)
         (ra : RegistrationAuthority.t) (va : ValidationAuthority.t)
         (ca : CertificateAuthority.t) (sa : StorageAuthority.t),
    snd (NewRegistrationAuthorityServer rpc ra) = None /\
    snd (NewValidationAuthorityServer rpc va) = None /\
    snd (NewCertificateAuthorityServer rpc ca) = None /\
    snd (NewStorageAuthorityServer rpc sa) = None.
Proof.
  intros; repeat split.
Qed.

(** C1.  The handlers of the Certificate Authority for RevokeCertificate and
    for GenerateOCSP, given a payload that does not decode, write an audit
    entry of the kind Error Condition, and none of the kind Improper
    Message; they return the error of the decoding and do not call the
    implementation. *)
Theorem CA_undecodable_payload_is_audited_as_error_condition :
  forall (impl : CertificateAuthority.t) (req : bytes)
         (v1 : revokeCertificateRequest) (v2 : OCSPSigningRequest)
         (e1 e2 : error) (w : World),
    json_Unmarshal (T := revokeCertificateRequest) req = (v1, Some e1) ->
    json_Unmarshal (T := OCSPSigningRequest) req = (v2, Some e2) ->
    CertificateAuthorityServer.RevokeCertificate impl req w =
      (([], Some e1),
       audited (mkAudit ErrorCondition MethodRevokeCertificate (Some e1) (Obj req)) w) /\
    CertificateAuthorityServer.GenerateOCSP impl req w =
      (([], Some e2),
       audited (mkAudit ErrorCondition MethodGenerateOCSP (Some e2) (Obj req)) w).
Proof.
  intros impl req v1 v2 e1 e2 w H1 H2; split.
  - unfold CertificateAuthorityServer.RevokeCertificate; rewrite H1; reflexivity.
  - unfold CertificateAuthorityServer.GenerateOCSP; rewrite H2; reflexivity.
Qed.

(** X5.  The handlers that decode their payload with [json.Unmarshal], but
    for RevokeCertificate and GenerateOCSP of the Certificate Authority and for
    NewCertificate of the Registration Authority (which writes a progress
    line first): on a payload that does not decode, each of them returns the
    error of the decoding and no payload, writes one audit entry, an Improper
    Message under the name of its operation with the payload, and does not
    call the implementation. *)
Lemma undecodable_payload_is_an_improper_message :
  forall (ra : RegistrationAuthority.t) (va : ValidationAuthority.t)
         (ca : CertificateAuthority.t) (sa : StorageAuthority.t)
         (req : bytes) (e : error) (w : World),
    (forall v, json_Unmarshal (T := registrationRequest) req = (v, Some e) ->
       improper (RegistrationAuthorityServer.NewRegistration ra) MethodNewRegistration req e w) /\
    (forall v, json_Unmarshal (T := authorizationRequest) req = (v, Some e) ->
       improper (RegistrationAuthorityServer.NewAuthorization ra) MethodNewAuthorization req e w) /\
    (forall v, json_Unmarshal (T := updateRegistrationRequest) req = (v, Some e) ->
       improper (RegistrationAuthorityServer.UpdateRegistration ra) MethodUpdateRegistration
         req e w) /\
    (forall v, json_Unmarshal (T := updateAuthorizationRequest) req = (v, Some e) ->
       improper (RegistrationAuthorityServer.UpdateAuthorization ra) MethodUpdateAuthorization
         req e w) /\
    (forall v, json_Unmarshal (T := Authorization) req = (v, Some e) ->
       improper (RegistrationAuthorityServer.OnValidationUpdate ra) MethodOnValidationUpdate
         req e w) /\
    (forall v, json_Unmarshal (T := updateValidationsRequest) req = (v, Some e) ->
       improper (ValidationAuthorityServer.UpdateValidations va) MethodUpdateValidations req e w) /\
    (forall v, json_Unmarshal (T := issueCertificateRequest) req = (v, Some e) ->
       improper (CertificateAuthorityServer.IssueCertificate ca) MethodIssueCertificate req e w) /\
    (forall v, json_Unmarshal (T := Registration) req = (v, Some e) ->
       improper (StorageAuthorityServer.UpdateRegistration sa) MethodUpdateRegistration req e w) /\
    (forall v, json_Unmarshal (T := getRegistrationRequest) req = (v, Some e) ->
       improper (StorageAuthorityServer.GetRegistration sa) MethodGetRegistration req e w) /\
    (forall v, json_Unmarshal (T := JsonWebKey) req = (v, Some e) ->
       improper (StorageAuthorityServer.GetRegistrationByKey sa) MethodGetRegistrationByKey
         req e w) /\
    (forall v, json_Unmarshal (T := addCertificateRequest) req = (v, Some e) ->
       improper (StorageAuthorityServer.AddCertificate sa) MethodAddCertificate req e w) /\
    (forall v, json_Unmarshal (T := Registration) req = (v, Some e) ->
       improper (StorageAuthorityServer.NewRegistration sa) MethodNewRegistration req e w) /\
    (forall v, json_Unmarshal (T := Authorization) req = (v, Some e) ->
       improper (StorageAuthorityServer.NewPendingAuthorization sa) MethodNewPendingAuthorization
         req e w) /\
    (forall v, json_Unmarshal (T := Authorization) req = (v, Some e) ->
       improper (StorageAuthorityServer.UpdatePendingAuthorization sa)
         MethodUpdatePendingAuthorization req e w) /\
    (forall v, json_Unmarshal (T := Authorization) req = (v, Some e) ->
       improper (StorageAuthorityServer.FinalizeAuthorization sa) MethodFinalizeAuthorization
         req e w) /\
    (forall v, json_Unmarshal (T := markCertificateRevokedRequest) req = (v, Some e) ->
       improper (StorageAuthorityServer.MarkCertificateRevoked sa) MethodMarkCertificateRevoked
         req e w) /\
    (forall v, json_Unmarshal (T := alreadyDeniedCSRRequest) req = (v, Some e) ->
       improper (StorageAuthorityServer.AlreadyDeniedCSR sa) MethodAlreadyDeniedCSR req e w).
Proof.
  intros ra va ca sa req e w.
  repeat match goal with |- _ /\ _ => split end;
    intros v H; autounfold with handlers; rewrite H; reflexivity.
Qed.

(** NewCertificate of the Registration Authority does so after its first
    progress line. *)
Lemma RA_NewCertificate_undecodable_payload :
  forall (ra : RegistrationAuthority.t) (req : bytes) (v : certificateRequest)
         (e : error) (w : World),
    json_Unmarshal (T := certificateRequest) req = (v, Some e) ->
    RegistrationAuthorityServer.NewCertificate ra req w =
      (([], Some e),
       mkWorld
         (audit w ++ [mkAudit ImproperMessage MethodNewCertificate (Some e) (Obj req)])
         (info w ++ [" [.] Entering MethodNewCertificate"]) (calls w) (ext w)).
Proof.
  intros ra req v e w H.
  unfold RegistrationAuthorityServer.NewCertificate; run; rewrite H; reflexivity.
Qed.

(** X6.  The handlers that parse their payload with crypto/x509,
    RevokeCertificate of the Registration Authority and IssueCertificate of
    the Certificate Authority: on an error of the parser, each of them returns
    that error and no payload, writes one audit entry, an Improper Message
    under the name of its operation with the payload, and does not call the
    implementation. *)
Lemma unparsable_payload_is_an_improper_message :
  forall (ra : RegistrationAuthority.t) (ca : CertificateAuthority.t)
         (req : bytes) (e : error) (w : World),
    (forall certs, x509_ParseCertificates req = (certs, Some e) ->
       improper (RegistrationAuthorityServer.RevokeCertificate ra) MethodRevokeCertificate
         req e w) /\
    (forall icReq, json_Unmarshal req = (icReq, None) ->
       x509_ParseCertificateRequest (ic_Bytes icReq) = inr e ->
       improper (CertificateAuthorityServer.IssueCertificate ca) MethodIssueCertificate req e w).
Proof.
  intros ra ca req e w; split.
  - intros certs H; autounfold with handlers; rewrite H; destruct certs; reflexivity.
  - intros icReq H1 H2; autounfold with handlers; rewrite H1; simpl; rewrite H2; reflexivity.
Qed.

(** X7.  The handler of the Registration Authority for RevokeCertificate returns
    a nil error for a payload that holds no certificate, after it has
    audited it as an Improper Message. *)
Lemma RA_RevokeCertificate_no_certificate :
  forall (impl : RegistrationAuthority.t) (req : bytes) (w : World),
    x509_ParseCertificates req = ([], None) ->
    RegistrationAuthorityServer.RevokeCertificate impl req w =
      (([], None),
       audited (mkAudit ImproperMessage MethodRevokeCertificate None (Obj req)) w).
Proof.
  intros impl req w H.
  unfold RegistrationAuthorityServer.RevokeCertificate; rewrite H; reflexivity.
Qed.

(** C4.  Two audit entries are written under the name GetRegistration by
    operations of another name: the entry of the handler of the Certificate
    Authority for IssueCertificate when the certificate does not encode, and
    the entry of the stub GenerateOCSP when its request does not encode. *)
Theorem encode_failures_are_audited_as_GetRegistration :
  forall (impl : CertificateAuthority.t) (cac : CertificateAuthorityClient.t)
         (req : bytes) (icReq : issueCertificateRequest)
         (csr : x509_CertificateRequest) (cert : Certificate) (response : bytes)
         (e : error) (x : ExtState) (w : World)
         (signRequest : OCSPSigningRequest) (data : bytes) (e' : error) (w' : World),
    json_Unmarshal req = (icReq, None) ->
    x509_ParseCertificateRequest (ic_Bytes icReq) = inl csr ->
    CertificateAuthority.IssueCertificate impl csr (ic_RegID icReq) (ic_EarliestExpiry icReq)
      (ext w) = ((cert, None), x) ->
    json_Marshal cert = (response, Some e) ->
    json_Marshal signRequest = (data, Some e') ->
    CertificateAuthorityServer.IssueCertificate impl req w =
      ((response, Some e),
       audited (mkAudit ErrorCondition "GetRegistration" (Some e) (Obj req))
         (called (mkCall CA "IssueCertificate" (Obj (csr, ic_RegID icReq, ic_EarliestExpiry icReq)))
            x w)) /\
    CertificateAuthorityClient.GenerateOCSP cac signRequest w' =
      (([], Some e'),
       audited (mkAudit ErrorCondition "GetRegistration" (Some e') (Obj signRequest)) w') /\
    "GetRegistration" <> MethodIssueCertificate /\
    "GetRegistration" <> MethodGenerateOCSP.
Proof.
  intros impl cac req icReq csr cert response e x w signRequest data e' w'
    Hreq Hcsr Himpl Hcert Hsign.
  repeat split; try discriminate.
  - unfold CertificateAuthorityServer.IssueCertificate.
    rewrite Hreq; simpl; rewrite Hcsr.
    run. rewrite Himpl; simpl. rewrite Hcert; reflexivity.
  - unfold CertificateAuthorityClient.GenerateOCSP.
    rewrite Hsign; reflexivity.
Qed.

(** C7.  When the implementation fails on GetCertificateByShortSerial, the
    handler of the Storage Authority returns that error with no payload.  It
    writes no audit entry when the error is [sql.ErrNoRows], and one entry of
    the kind Error Condition when it is another error. *)
Theorem GetCertificateByShortSerial_not_found_is_not_audited :
  forall (impl : StorageAuthority.t) (req cert : bytes) (e : error)
         (x : ExtState) (w : World),
    StorageAuthority.GetCertificateByShortSerial impl (string_of_list_byte req) (ext w)
      = ((cert, Some e), x) ->
    exists w' : World,
      StorageAuthorityServer.GetCertificateByShortSerial impl req w = (([], Some e), w') /\
      calls w' = calls w ++
        [mkCall SA "GetCertificateByShortSerial" (Obj (string_of_list_byte req))] /\
      (e = sql_ErrNoRows -> audit w' = audit w) /\
      (e <> sql_ErrNoRows ->
       audit w' = audit w ++
         [mkAudit ErrorCondition MethodGetCertificateByShortSerial (Some e) (Obj req)]).
Proof.
  intros impl req cert e x w Himpl.
  unfold StorageAuthorityServer.GetCertificateByShortSerial.
  run. rewrite Himpl; simpl.
  destruct (error_eqb e sql_ErrNoRows) eqn:E; simpl.
  - apply error_eqb_eq in E.
    eexists; split; [reflexivity |]; simpl.
    repeat split; try reflexivity; intros N; contradiction.
  - apply error_eqb_neq in E.
    eexists; split; [reflexivity |]; simpl.
    repeat split; try reflexivity; intros N; contradiction.
Qed.

End ServerProperties.

Section ClientProperties.
Context {C : Core} {L : Libs}.

(** C6.  When the dispatch of a stub method other than UpdateValidations
    returns an error of the transport, the method returns an error and leaves
    the state as the dispatch left it, so it writes no audit entry.  The error
    is the one of the transport, except in NewRegistration,
    NewPendingAuthorization, AddCertificate and AlreadyDeniedCSR of the
    Storage Authority client, which return a new error with the message
    "<operation> RPC failed". *)
Theorem transport_error_is_surfaced :
  forall (client : RPCClient) (call : StubCall) (name : string) (data resp : bytes)
         (e : error) (w w' : World),
    is_UpdateValidations call = false ->
    stub_request call = (name, (data, None)) ->
    DispatchSync client name data w = ((resp, Some e), w') ->
    stub_error client call w = (Some (surfaced call e), w').
Proof.
  intros client call name data resp e w w' Hva Hreq Hdisp.
  destruct call; try discriminate Hva; clear Hva;
    dispatch Hreq Hdisp; try reflexivity.
  destruct resp; reflexivity.
Qed.

Lemma surfaced_unchanged :
  forall (call : StubCall) (e : error),
    generic_failure call = None -> surfaced call e = e.
Proof.
  intros call e H; unfold surfaced; now rewrite H.
Qed.

(** Once its request is encoded, UpdateValidations of the Validation
    Authority client returns nil whatever the dispatch returns, an error
    included. *)
Lemma UpdateValidations_discards_dispatch_error :
  forall (vac : ValidationAuthorityClient.t) (authz : Authorization) (index : Z)
         (data : bytes) (r : bytes * option error) (w w' : World),
    json_Marshal (mk_updateValidationsRequest authz index) = (data, None) ->
    DispatchSync (ValidationAuthorityClient.rpc vac) MethodUpdateValidations data w = (r, w') ->
    ValidationAuthorityClient.UpdateValidations vac authz index w = (None, w').
Proof.
  intros vac authz index data r w w' Hreq Hdisp.
  unfold ValidationAuthorityClient.UpdateValidations.
  rewrite Hreq; run. rewrite Hdisp. destruct r; reflexivity.
Qed.

(** C8.  UpdateValidations of the Validation Authority client, on every
    input.  When its request encodes, it dispatches the request and returns
    nil whatever the dispatch returns, an error included, and leaves the state
    as the dispatch left it.  When its request does not encode, it returns
    the error of the encoding, dispatches nothing and leaves the state as it
    was. *)
Theorem UpdateValidations_returns_nil_once_encoded :
  forall (vac : ValidationAuthorityClient.t) (authz : Authorization) (index : Z)
         (data : bytes) (o : option error) (w : World),
    json_Marshal (mk_updateValidationsRequest authz index) = (data, o) ->
    ValidationAuthorityClient.UpdateValidations vac authz index w =
      match o with
      | Some e => (Some e, w)
      | None =>
        (None,
         snd (DispatchSync (ValidationAuthorityClient.rpc vac) MethodUpdateValidations data w))
      end.
Proof.
  intros vac authz index data o w Hreq.
  unfold ValidationAuthorityClient.UpdateValidations.
  rewrite Hreq; destruct o as [e |]; simpl; [reflexivity |].
  run.
  destruct (DispatchSync (ValidationAuthorityClient.rpc vac) MethodUpdateValidations data w)
    as [[resp err] w'].
  reflexivity.
Qed.

(** C3.  When the dispatch of NewCertificate (RA client), IssueCertificate
    (CA client), AddCertificate or AlreadyDeniedCSR (SA client) returns an
    empty payload and a nil error, the method returns an error whose message
    starts with the name of the operation. *)
Theorem empty_success_is_a_named_failure :
  forall (client : RPCClient) (call : StubCall) (name : string) (data : bytes)
         (w w' : World),
    guards_empty_response call = true ->
    stub_request call = (name, (data, None)) ->
    DispatchSync client name data w = (([], None), w') ->
    exists e : error,
      stub_error client call w = (Some e, w') /\
      String.prefix name (Error e) = true.
Proof.
  intros client call name data w w' Hg Hreq Hdisp.
  destruct call; try discriminate Hg; clear Hg;
    dispatch Hreq Hdisp; eexists; split; reflexivity.
Qed.

(** C2.  On a response of one byte without error, AlreadyDeniedCSR of the
    Storage Authority client returns true when the byte is 1 and false when
    it is any other byte, 0 included. *)
Theorem AlreadyDeniedCSR_response_byte :
  forall (sac : StorageAuthorityClient.t) (names : list string) (data : bytes)
         (b : byte) (w w' : World),
    json_Marshal (mk_alreadyDeniedCSRRequest names) = (data, None) ->
    DispatchSync (StorageAuthorityClient.rpc sac) MethodAlreadyDeniedCSR data w
      = (([b], None), w') ->
    StorageAuthorityClient.AlreadyDeniedCSR sac names w = ((Byte.eqb b x01, None), w').
Proof.
  intros sac names data b w w' Hreq Hdisp.
  unfold StorageAuthorityClient.AlreadyDeniedCSR.
  rewrite Hreq; run. rewrite Hdisp; simpl.
  destruct (Byte.eqb b x00) eqn:E0.
  - apply byte_eqb_eq in E0; subst b; reflexivity.
  - destruct (Byte.eqb b x01); reflexivity.
Qed.

(** C5.  IssueCertificate of the Certificate Authority client does not depend
    on its argument earliestExpiry: the request it encodes holds the zero
    time in the field EarliestExpiry. *)
Theorem IssueCertificate_stub_ignores_earliestExpiry :
  forall (cac : CertificateAuthorityClient.t) (csr : x509_CertificateRequest) (regID : Z)
         (earliestExpiry : time_Time),
    CertificateAuthorityClient.IssueCertificate cac csr regID earliestExpiry =
    CertificateAuthorityClient.IssueCertificate cac csr regID zero /\
    stub_request (CA_IssueCertificate csr regID earliestExpiry) =
      (MethodIssueCertificate,
       json_Marshal (mk_issueCertificateRequest (csr_Raw csr) regID zero)).
Proof.
  intros; split; reflexivity.
Qed.

End ClientProperties.

(** ** Stub and adapter joined by a transport that delivers *)

Section RoundTrip.
Context {C : Core} {L : Libs}.

(** C9.  The round trip of the request of IssueCertificate does not give
    back the arguments of the caller: when the stub of the Certificate
    Authority is joined to its adapter, and the codec gives back what it
    encoded, the implementation is called once, with the zero time in the
    place of the earliestExpiry that the caller supplied. *)
Theorem IssueCertificate_round_trip_loses_earliestExpiry :
  forall (impl : CertificateAuthority.t) (rpc0 : RPCServer)
         (csr : x509_CertificateRequest) (regID : Z) (earliestExpiry : time_Time)
         (data : bytes) (w : World),
    json_Marshal (mk_issueCertificateRequest (csr_Raw csr) regID zero) = (data, None) ->
    json_Unmarshal data = (mk_issueCertificateRequest (csr_Raw csr) regID zero, None) ->
    x509_ParseCertificateRequest (csr_Raw csr) = inl csr ->
    exists (r : Certificate * option error) (w' : World),
      CertificateAuthorityClient.IssueCertificate
        (CertificateAuthorityClient.mk (loopback (fst (NewCertificateAuthorityServer rpc0 impl))))
        csr regID earliestExpiry w = (r, w') /\
      calls w' = calls w ++ [mkCall CA "IssueCertificate" (Obj (csr, regID, zero))].
Proof.
  intros impl rpc0 csr regID earliestExpiry data w Henc Hdec Hcsr.
  unfold CertificateAuthorityClient.IssueCertificate.
  rewrite Henc; run.
  unfold CertificateAuthorityServer.IssueCertificate.
  rewrite Hdec; simpl. rewrite Hcsr. run.
  destruct (CertificateAuthority.IssueCertificate impl csr regID zero (ext w))
    as [[cert [e|]] x]; simpl.
  - eexists; eexists; split; reflexivity.
  - destruct (json_Marshal cert) as [response [e|]]; simpl.
    + eexists; eexists; split; reflexivity.
    + destruct response; simpl.
      * eexists; eexists; split; reflexivity.
      * destruct (json_Unmarshal (b :: response)).
        eexists; eexists; split; reflexivity.
Qed.

(** The round trip of UpdateAuthorization through the Registration Authority:
    the implementation gets the three arguments of the caller and the caller
    gets the authorization of the implementation, when the codec gives back
    the request and the authorization it encoded. *)
Lemma UpdateAuthorization_round_trip :
  forall (impl : RegistrationAuthority.t) (rpc0 : RPCServer)
         (authz : Authorization) (index : Z) (response : Challenge)
         (data b : bytes) (newAuthz : Authorization) (x : ExtState) (w : World),
    json_Marshal (mk_updateAuthorizationRequest authz index response) = (data, None) ->
    json_Unmarshal data = (mk_updateAuthorizationRequest authz index response, None) ->
    RegistrationAuthority.UpdateAuthorization impl authz index response (ext w)
      = ((newAuthz, None), x) ->
    json_Marshal newAuthz = (b, None) ->
    len0 b = false ->
    json_Unmarshal b = (newAuthz, None) ->
    RegistrationAuthorityClient.UpdateAuthorization
      (RegistrationAuthorityClient.mk (loopback (fst (NewRegistrationAuthorityServer rpc0 impl))))
      authz index response w
    = ((newAuthz, None),
       called (mkCall RA "UpdateAuthorization" (Obj (authz, index, response))) x w).
Proof.
  intros impl rpc0 authz index response data b newAuthz x w Henc Hdec Himpl Hres Hlen Hback.
  unfold RegistrationAuthorityClient.UpdateAuthorization.
  rewrite Henc; run.
  unfold RegistrationAuthorityServer.UpdateAuthorization.
  rewrite Hdec; run. rewrite Himpl; simpl. rewrite Hres; simpl.
  rewrite Hlen, Hback; reflexivity.
Qed.

(** The round trip of AlreadyDeniedCSR through the Storage Authority: the
    names reach the implementation and its answer reaches the caller. *)
Lemma AlreadyDeniedCSR_round_trip :
  forall (impl : StorageAuthority.t) (rpc0 : RPCServer) (names : list string)
         (data : bytes) (answer : bool) (x : ExtState) (w : World),
    json_Marshal (mk_alreadyDeniedCSRRequest names) = (data, None) ->
    json_Unmarshal data = (mk_alreadyDeniedCSRRequest names, None) ->
    StorageAuthority.AlreadyDeniedCSR impl names (ext w) = ((answer, None), x) ->
    StorageAuthorityClient.AlreadyDeniedCSR
      (StorageAuthorityClient.mk (loopback (fst (NewStorageAuthorityServer rpc0 impl))))
      names w
    = ((answer, None), called (mkCall SA "AlreadyDeniedCSR" (Obj names)) x w).
Proof.
  intros impl rpc0 names data answer x w Henc Hdec Himpl.
  unfold StorageAuthorityClient.AlreadyDeniedCSR.
  rewrite Henc; run.
  unfold StorageAuthorityServer.AlreadyDeniedCSR.
  rewrite Hdec; run. rewrite Himpl; simpl.
  destruct answer; reflexivity.
Qed.

(** The round trip of RevokeCertificate through the Registration Authority:
    the certificate travels as its raw bytes and is parsed back. *)
Lemma RA_RevokeCertificate_round_trip :
  forall (impl : RegistrationAuthority.t) (rpc0 : RPCServer) (cert : x509_Certificate)
         (x : ExtState) (w : World),
    x509_ParseCertificates (cert_Raw cert) = ([cert], None) ->
    RegistrationAuthority.RevokeCertificate impl cert (ext w) = (None, x) ->
    RegistrationAuthorityClient.RevokeCertificate
      (RegistrationAuthorityClient.mk (loopback (fst (NewRegistrationAuthorityServer rpc0 impl))))
      cert w
    = (None, called (mkCall RA "RevokeCertificate" (Obj cert)) x w).
Proof.
  intros impl rpc0 cert x w Hparse Himpl.
  unfold RegistrationAuthorityClient.RevokeCertificate; run.
  unfold RegistrationAuthorityServer.RevokeCertificate.
  rewrite Hparse; run. rewrite Himpl; reflexivity.
Qed.

(** X10.  Every stub method dispatches under a name that the adapter of its role
    has registered. *)
Lemma stub_operation_is_registered :
  forall (a : Authorities) (call : StubCall),
    registered (adapter a call) (fst (stub_request call)) <> None.
Proof.
  intros a call; destruct call; simpl; discriminate.
Qed.

Lemma only_error_nil :
  forall (S : Type) (r : option error * S) (u : unit) (x : S),
    only_error r = ((u, None), x) -> r = (None, x).
Proof.
  intros S [o s] u x H; unfold only_error in H; simpl in H.
  inversion H; reflexivity.
Qed.

(** The round trip of every operation but IssueCertificate, and of
    IssueCertificate with the zero time.  When the stub is joined to the
    adapter of its role, the adapter decodes the request that the stub
    encoded, the call in process of the implementation succeeds with the
    result [v], and the stub decodes the result that the adapter encoded,
    then the stub call returns [v] without error; the implementation was
    called once, on the arguments of the caller, and no audit entry was
    written. *)
Lemma remote_call_equals_local_call :
  forall (a : Authorities) (call : StubCall) (name : string) (data : bytes)
         (v : Result call) (x : ExtState) (w : World),
    carries_arguments call ->
    stub_request call = (name, (data, None)) ->
    decodes_back call data ->
    local_call a call (ext w) = ((v, None), x) ->
    gives_back call v ->
    stub_run (loopback (adapter a call)) call w = ((v, None), served call x w).
Proof.
  intros a call name data v x w Hcarry Hreq Hdec Hloc Hback.
  unfold served.
  destruct call; simpl in v, Hcarry, Hreq, Hdec, Hloc, Hback |- *;
    inversion Hreq; subst; clear Hreq;
    try apply only_error_nil in Hloc;
    repeat match goal with
           | H : _ /\ _ |- _ => destruct H
           | H : json_round_trips _ |- _ => destruct H as (b & Hm & Hl & Hu)
           | u : unit |- _ => destruct u
           end;
    autounfold with stubs; simpl;
    repeat match goal with
           | H : ?m = (_, None) |- context [?m] => rewrite H; simpl
           end;
    run; autounfold with handlers; simpl;
    repeat match goal with
           | |- context [string_of_list_byte (list_byte_of_string _)] =>
             rewrite string_of_list_byte_of_string; run
           | H : ?m = _ |- context [?m] => rewrite H; run
           end;
    rewrite <- ?app_assoc, ?app_nil_r; simpl;
    try reflexivity.
  destruct v; reflexivity.
Qed.

End RoundTrip.

(** * The properties on the small instance *)

Import Toy.

Lemma CA_undecodable_payload_witness :
  @CertificateAuthorityServer.RevokeCertificate core libs ca truncated w0 =
    (([], Some syntax_error),
     @audited core (mkAudit ErrorCondition "RevokeCertificate" (Some syntax_error) (Obj truncated)) w0) /\
  @CertificateAuthorityServer.GenerateOCSP core libs ca truncated w0 =
    (([], Some syntax_error),
     @audited core (mkAudit ErrorCondition "GenerateOCSP" (Some syntax_error) (Obj truncated)) w0).
Proof.
  apply (@CA_undecodable_payload_is_audited_as_error_condition core libs ca truncated
           (mk_revokeCertificateRequest "" 0%Z) 0%Z syntax_error syntax_error w0);
    reflexivity.
Defined.

Lemma encode_failures_witness :
  @CertificateAuthorityServer.IssueCertificate core libs ca issue_200_100 w0 =
    (([], Some unsupported),
     @audited core (mkAudit ErrorCondition "GetRegistration" (Some unsupported) (Obj issue_200_100))
       (@called core (mkCall CA "IssueCertificate" (Obj ([x30; x01], 200%Z, 100%Z))) 1%nat w0)) /\
  @CertificateAuthorityClient.GenerateOCSP core libs (cac failing) 300%Z w0 =
    (([], Some unsupported),
     @audited core (mkAudit ErrorCondition "GetRegistration" (Some unsupported) (Obj 300%Z)) w0) /\
  "GetRegistration" <> MethodIssueCertificate /\
  "GetRegistration" <> MethodGenerateOCSP.
Proof.
  apply (@encode_failures_are_audited_as_GetRegistration core libs ca (cac failing)
           issue_200_100 (@mk_issueCertificateRequest core [x30; x01] 200%Z 100%Z)
           [x30; x01] 300%Z [] unsupported 1%nat w0 300%Z [] unsupported w0);
    reflexivity.
Defined.

Lemma GetCertificateByShortSerial_witness :
  (exists w' : World,
     @StorageAuthorityServer.GetCertificateByShortSerial core sa [] w0
       = (([], Some sql_ErrNoRows), w') /\
     calls w' = calls w0 ++ [mkCall SA "GetCertificateByShortSerial" (Obj "")] /\
     (sql_ErrNoRows = sql_ErrNoRows -> audit w' = audit w0) /\
     (sql_ErrNoRows <> sql_ErrNoRows ->
      audit w' = audit w0 ++
        [mkAudit ErrorCondition MethodGetCertificateByShortSerial (Some sql_ErrNoRows)
           (Obj ([] : bytes))])) /\
  (exists w' : World,
     @StorageAuthorityServer.GetCertificateByShortSerial core sa [x21] w0
       = (([], Some (foreign_error "database is locked")), w') /\
     calls w' = calls w0 ++ [mkCall SA "GetCertificateByShortSerial" (Obj "!")] /\
     (foreign_error "database is locked" = sql_ErrNoRows -> audit w' = audit w0) /\
     (foreign_error "database is locked" <> sql_ErrNoRows ->
      audit w' = audit w0 ++
        [mkAudit ErrorCondition MethodGetCertificateByShortSerial
           (Some (foreign_error "database is locked")) (Obj [x21])])).
Proof.
  split.
  - apply (@GetCertificateByShortSerial_not_found_is_not_audited core sa [] []
             sql_ErrNoRows 0%nat w0); reflexivity.
  - apply (@GetCertificateByShortSerial_not_found_is_not_audited core sa [x21] []
             (foreign_error "database is locked") 0%nat w0); reflexivity.
Defined.

Lemma AlreadyDeniedCSR_response_byte_witness :
  @StorageAuthorityClient.AlreadyDeniedCSR core libs (sac (canned ([x01], None)))
    ["a.example"] w0 = ((true, None), w0) /\
  @StorageAuthorityClient.AlreadyDeniedCSR core libs (sac (canned ([x00], None)))
    ["a.example"] w0 = ((false, None), w0) /\
  @StorageAuthorityClient.AlreadyDeniedCSR core libs (sac (canned ([xff], None)))
    ["a.example"] w0 = ((false, None), w0).
Proof.
  refine (conj _ (conj _ _)).
  - apply (@AlreadyDeniedCSR_response_byte core libs (sac (canned ([x01], None)))
             ["a.example"] one_name x01 w0 w0); reflexivity.
  - apply (@AlreadyDeniedCSR_response_byte core libs (sac (canned ([x00], None)))
             ["a.example"] one_name x00 w0 w0); reflexivity.
  - apply (@AlreadyDeniedCSR_response_byte core libs (sac (canned ([xff], None)))
             ["a.example"] one_name xff w0 w0); reflexivity.
Defined.

(** The response of the one byte 2, which is a byte other than 0, decodes to
    false. *)
Lemma AlreadyDeniedCSR_byte_two_decodes_to_false :
  x02 <> x00 /\
  @DispatchSync core (canned ([x02], None)) MethodAlreadyDeniedCSR one_name w0
    = (([x02], None), w0) /\
  @StorageAuthorityClient.AlreadyDeniedCSR core libs (sac (canned ([x02], None)))
    ["a.example"] w0 = ((false, None), w0).
Proof.
  refine (conj _ (conj _ _)); [discriminate | reflexivity | reflexivity].
Qed.

Lemma empty_success_witness :
  (exists e : error,
     @stub_error core libs empty_success (@RA_NewCertificate core [x30] 1%Z) w0 = (Some e, w0) /\
     String.prefix "NewCertificate" (Error e) = true) /\
  (exists e : error,
     @stub_error core libs empty_success (@CA_IssueCertificate core [x30] 1%Z 7%Z) w0
       = (Some e, w0) /\
     String.prefix "IssueCertificate" (Error e) = true) /\
  (exists e : error,
     @stub_error core libs empty_success (@SA_AddCertificate core [x30] 1%Z) w0 = (Some e, w0) /\
     String.prefix "AddCertificate" (Error e) = true) /\
  (exists e : error,
     @stub_error core libs empty_success (@SA_AlreadyDeniedCSR core ["a.example"]) w0
       = (Some e, w0) /\
     String.prefix "AlreadyDeniedCSR" (Error e) = true).
Proof.
  refine (conj _ (conj _ (conj _ _))).
  - apply (@empty_success_is_a_named_failure core libs empty_success
             (@RA_NewCertificate core [x30] 1%Z) "NewCertificate"
             [x01; x30; x01; x01] w0 w0); reflexivity.
  - apply (@empty_success_is_a_named_failure core libs empty_success
             (@CA_IssueCertificate core [x30] 1%Z 7%Z) "IssueCertificate"
             [x01; x30; x01; x01; x01; x00] w0 w0); reflexivity.
  - apply (@empty_success_is_a_named_failure core libs empty_success
             (@SA_AddCertificate core [x30] 1%Z) "AddCertificate"
             [x01; x30; x01; x01] w0 w0); reflexivity.
  - apply (@empty_success_is_a_named_failure core libs empty_success
             (@SA_AlreadyDeniedCSR core ["a.example"]) "AlreadyDeniedCSR"
             one_name w0 w0); reflexivity.
Defined.

Lemma transport_error_witness :
  @stub_error core libs failing (@RA_NewRegistration core 1%Z) w0
    = (Some connection_reset, w0) /\
  @stub_error core libs failing (@SA_GetRegistration core 1%Z) w0
    = (Some connection_reset, w0) /\
  @stub_error core libs failing (@SA_NewRegistration core 1%Z) w0
    = (Some (errors_New "NewRegistration RPC failed"), w0).
Proof.
  refine (conj _ (conj _ _)).
  - apply (@transport_error_is_surfaced core libs failing (@RA_NewRegistration core 1%Z)
             "NewRegistration" [x01; x01] [] connection_reset w0 w0); reflexivity.
  - apply (@transport_error_is_surfaced core libs failing (@SA_GetRegistration core 1%Z)
             "GetRegistration" [x01; x01] [] connection_reset w0 w0); reflexivity.
  - apply (@transport_error_is_surfaced core libs failing (@SA_NewRegistration core 1%Z)
             "NewRegistration" [x01; x01] [] connection_reset w0 w0); reflexivity.
Defined.

(** NewRegistration of the Storage Authority client, on a transport that
    fails with an error, returns another error than that one. *)
Lemma SA_NewRegistration_replaces_transport_error :
  @DispatchSync core failing MethodNewRegistration [x01; x01] w0
    = (([], Some connection_reset), w0) /\
  @json_Marshal _ (@json_Registration core libs) 1%Z = ([x01; x01], None) /\
  snd (fst (@StorageAuthorityClient.NewRegistration core libs (sac failing) 1%Z w0))
    = Some (errors_New "NewRegistration RPC failed") /\
  snd (fst (@StorageAuthorityClient.NewRegistration core libs (sac failing) 1%Z w0))
    <> Some connection_reset.
Proof.
  refine (conj _ (conj _ (conj _ _))); [reflexivity | reflexivity | reflexivity | discriminate].
Qed.

Lemma UpdateValidations_witness :
  @DispatchSync core failing MethodUpdateValidations [x01; x05; x01; x00] w0
    = (([], Some connection_reset), w0) /\
  @ValidationAuthorityClient.UpdateValidations core libs (vac failing) 5%Z 0%Z w0 = (None, w0).
Proof.
  split; [reflexivity |].
  apply (@UpdateValidations_discards_dispatch_error core libs (vac failing) 5%Z 0%Z
           [x01; x05; x01; x00] ([], Some connection_reset) w0 w0); reflexivity.
Defined.

Lemma IssueCertificate_round_trip_witness :
  exists (r : @Certificate core * option error) (w' : @World core),
    @CertificateAuthorityClient.IssueCertificate core libs
      (cac (loopback (fst (@NewCertificateAuthorityServer core libs [] ca))))
      [x30; x01] 3%Z 7%Z w0 = (r, w') /\
    calls w' = calls w0 ++ [mkCall CA "IssueCertificate" (Obj ([x30; x01], 3%Z, 0%Z))].
Proof.
  apply (@IssueCertificate_round_trip_loses_earliestExpiry core libs ca [] [x30; x01] 3%Z 7%Z
           [x02; x30; x01; x01; x03; x01; x00] w0); reflexivity.
Defined.

(** On the small instance the caller asks for the expiry 7 and gets the
    certificate 3 = 3 + 0, issued for the expiry 0. *)
Example IssueCertificate_expiry_seven_is_issued_for_zero :
  @CertificateAuthorityClient.IssueCertificate core libs
    (cac (loopback (fst (@NewCertificateAuthorityServer core libs [] ca))))
    [x30; x01] 3%Z 7%Z w0
  = ((3%Z, None),
     @called core (mkCall CA "IssueCertificate" (Obj ([x30; x01], 3%Z, 0%Z))) 1%nat w0).
Proof. reflexivity. Qed.

Example UpdateAuthorization_round_trip_example :
  @RegistrationAuthorityClient.UpdateAuthorization core libs
    (rac (loopback (fst (@NewRegistrationAuthorityServer core libs [] ra))))
    4%Z 1%Z 2%Z w0
  = ((6%Z, None),
     @called core (mkCall RA "UpdateAuthorization" (Obj (4%Z, 1%Z, 2%Z))) 1%nat w0).
Proof.
  apply (@UpdateAuthorization_round_trip core libs ra [] 4%Z 1%Z 2%Z
           [x01; x04; x01; x01; x01; x02] [x01; x06] 6%Z 1%nat w0); reflexivity.
Qed.

Example AddCertificate_round_trip_example :
  @stub_run core libs (loopback (@adapter core libs (mkAuthorities ra va ca sa)
                                   (@SA_AddCertificate core [x30; x01] 5%Z)))
    (@SA_AddCertificate core [x30; x01] 5%Z) w0
  = (("0a", None), @served core (@SA_AddCertificate core [x30; x01] 5%Z) 1%nat w0).
Proof.
  apply (@remote_call_equals_local_call core libs (mkAuthorities ra va ca sa)
           (@SA_AddCertificate core [x30; x01] 5%Z) "AddCertificate"
           [x02; x30; x01; x01; x05] "0a" 1%nat w0); reflexivity.
Qed.

(** * Further properties *)

(** ** Configuration of the HTTP prober *)

Section HTTPProperties.
Context {E : HTTP.Env}.

Lemma check_rcodes_accepts :
  forall codes : list Z,
    HTTP.check_rcodes codes = None <-> Forall HTTP.in_range codes.
Proof.
  induction codes as [| c rest IH]; simpl.
  - split; [constructor | reflexivity].
  - destruct ((c <? 100)%Z || (c >? 599)%Z) eqn:B.
    + split; [discriminate |].
      intro F; inversion F as [| ? ? Hc ?]; subst. unfold HTTP.in_range in Hc.
      apply orb_true_iff in B; destruct B as [B | B];
        [apply Z.ltb_lt in B | apply Z.gtb_lt in B]; lia.
    + apply orb_false_iff in B; destruct B as [B1 B2].
      apply Z.ltb_ge in B1. rewrite Z.gtb_ltb in B2. apply Z.ltb_ge in B2.
      rewrite IH; split.
      * intro F; constructor; [unfold HTTP.in_range; lia | assumption].
      * intro F; inversion F; assumption.
Qed.

(** X1.  [validateRCodes] returns nil exactly when there is at least one
    response code and every code is from 100 to 599. *)
Theorem validateRCodes_accepts_exactly_the_codes_in_range :
  forall c : HTTP.HTTPConf,
    HTTP.validateRCodes c = None <->
    HTTP.RCodes c <> [] /\ Forall HTTP.in_range (HTTP.RCodes c).
Proof.
  intros c; unfold HTTP.validateRCodes.
  destruct (HTTP.RCodes c) as [| r rest] eqn:R.
  - split; [discriminate | intros [N _]; contradiction].
  - rewrite check_rcodes_accepts; split.
    + intro F; split; [discriminate | assumption].
    + intros [_ F]; assumption.
Qed.

(** X2.  When the codes before a code out of the range 100..599 are all in
    that range, the error of [validateRCodes] is the one that names this
    first code out of range, whatever follows it. *)
Theorem validateRCodes_names_the_first_code_out_of_range :
  forall (c : HTTP.HTTPConf) (good : list Z) (bad : Z) (rest : list Z),
    HTTP.RCodes c = good ++ bad :: rest ->
    Forall HTTP.in_range good ->
    ~ HTTP.in_range bad ->
    HTTP.validateRCodes c =
      Some (errors_New
              ("'rcodes' contains an invalid HTTP response code, '" ++ HTTP.fmt_d bad ++ "'")).
Proof.
  intros c good bad rest R G B.
  assert (Hloop : HTTP.check_rcodes (good ++ bad :: rest) =
                  Some (errors_New
                          ("'rcodes' contains an invalid HTTP response code, '"
                           ++ HTTP.fmt_d bad ++ "'"))).
  { clear R. induction G as [| g good' Hg G IH]; simpl.
    - destruct ((bad <? 100)%Z || (bad >? 599)%Z) eqn:T; [reflexivity |].
      exfalso; apply B. apply orb_false_iff in T; destruct T as [T1 T2].
      apply Z.ltb_ge in T1. rewrite Z.gtb_ltb in T2. apply Z.ltb_ge in T2.
      unfold HTTP.in_range; lia.
    - unfold HTTP.in_range in Hg.
      destruct ((g <? 100)%Z || (g >? 599)%Z) eqn:T; [| exact IH].
      apply orb_true_iff in T; destruct T as [T | T];
        [apply Z.ltb_lt in T | apply Z.gtb_lt in T]; lia. }
  unfold HTTP.validateRCodes; rewrite R.
  destruct (good ++ bad :: rest) eqn:D; [| exact Hloop].
  destruct good; discriminate.
Qed.

(** X3.  [MakeProber] returns either a prober and no error or an error and
    no prober.  A prober has the URL and the response codes of the
    configuration; its URL parses to a URL with a scheme, it has at least
    one response code, all its codes are from 100 to 599, and its user agent
    is not empty, the default one standing in the place of an empty one.
    An error is the error of [validateURL] or, when that one is nil, the error
    of [validateRCodes]. *)
Theorem MakeProber_returns_a_valid_prober_or_an_error :
  forall (c : HTTP.HTTPConf) (colls : HTTP.Collectors),
    match HTTP.MakeProber c colls with
    | (Some p, None) =>
      HTTP.url p = HTTP.URL c /\
      HTTP.rcodes p = HTTP.RCodes c /\
      HTTP.useragent p =
        (if String.eqb (HTTP.UserAgent c) "" then HTTP.default_UserAgent else HTTP.UserAgent c) /\
      HTTP.useragent p <> "" /\
      (exists u, HTTP.url_Parse (HTTP.url p) = inl u /\ HTTP.Scheme u <> "") /\
      HTTP.rcodes p <> [] /\
      Forall HTTP.in_range (HTTP.rcodes p)
    | (None, Some e) =>
      HTTP.validateURL c = Some e \/
      (HTTP.validateURL c = None /\ HTTP.validateRCodes c = Some e)
    | _ => False
    end.
Proof.
  intros c colls; unfold HTTP.MakeProber.
  destruct (HTTP.validateURL c) as [e |] eqn:U; simpl; [left; reflexivity |].
  destruct (HTTP.validateRCodes c) as [e |] eqn:R; simpl; [right; split; reflexivity |].
  assert (R1 : HTTP.RCodes c <> [] /\ Forall HTTP.in_range (HTTP.RCodes c)).
  { unfold HTTP.validateRCodes in R.
    destruct (HTTP.RCodes c) as [| r rest]; [discriminate |].
    split; [discriminate | apply check_rcodes_accepts; exact R]. }
  destruct R1 as [R1 R2].
  unfold HTTP.validateURL in U.
  destruct (HTTP.url_Parse (HTTP.URL c)) as [u | e] eqn:P; [| discriminate].
  destruct (String.eqb (HTTP.Scheme u) "") eqn:S; [discriminate |].
  apply String.eqb_neq in S.
  assert (Hu : exists u0, HTTP.url_Parse (HTTP.URL c) = inl u0 /\ HTTP.Scheme u0 <> "")
    by (exists u; split; [exact P | assumption]).
  destruct (String.eqb (HTTP.UserAgent c) "") eqn:A; simpl.
  - repeat split; try assumption. discriminate.
  - apply String.eqb_neq in A. repeat split; assumption.
Qed.

(** X4.  When [yaml.Unmarshal] decodes a settings document without error to
    a configuration [conf] whose URL and response codes are valid,
    [UnmarshalSettings], on any receiver, returns [conf] and a nil error, and
    [MakeProber] on [conf] returns the prober with the URL and the codes of
    [conf], and with the default user agent when [conf] has none. *)
Theorem UnmarshalSettings_then_MakeProber :
  forall (c0 : HTTP.HTTPConf) (settings : bytes) (conf : HTTP.HTTPConf)
         (colls : HTTP.Collectors),
    HTTP.yaml_Unmarshal settings = (conf, None) ->
    HTTP.validateURL conf = None ->
    HTTP.validateRCodes conf = None ->
    HTTP.UnmarshalSettings c0 settings = (Some conf, None) /\
    HTTP.MakeProber conf colls =
      (Some (HTTP.mkHTTPProbe (HTTP.URL conf) (HTTP.RCodes conf)
               (if String.eqb (HTTP.UserAgent conf) ""
                then HTTP.default_UserAgent else HTTP.UserAgent conf)),
       None).
Proof.
  intros c0 settings conf colls Y U R.
  split.
  - unfold HTTP.UnmarshalSettings; rewrite Y; reflexivity.
  - unfold HTTP.MakeProber; rewrite U; simpl; rewrite R; simpl.
    destruct (String.eqb (HTTP.UserAgent conf) ""); reflexivity.
Qed.

End HTTPProperties.

(** ** Stubs: requests that do not encode, responses that are empty or do not decode *)

Section StubEdges.
Context {C : Core} {L : Libs}.

(** X13.  When the request of a stub method does not encode, the method returns
    without a dispatch: its result is the same on every transport.  It
    returns the error of the encoding (NewRegistration of the Storage
    Authority client a new error "NewRegistration RPC failed") and leaves the
    state as it was, but for RevokeCertificate and GenerateOCSP of the
    Certificate Authority client, which write one audit entry. *)
Theorem unencodable_request_is_not_dispatched :
  forall (client : RPCClient) (call : StubCall) (name : string) (data : bytes)
         (e : error) (w : World),
    stub_request call = (name, (data, Some e)) ->
    stub_error client call w =
      (Some (encode_failure_error call e), encode_failure_state call e w).
Proof.
  intros client call name data e w Hreq.
  destruct call; simpl in Hreq; inversion Hreq; subst; clear Hreq;
    autounfold with stubs; simpl;
    repeat match goal with
           | H : ?m = (_, Some _) |- context [?m] => rewrite H; simpl
           end;
    reflexivity.
Qed.

(** X14.  When the dispatch of NewRegistration, NewAuthorization,
    UpdateRegistration or UpdateAuthorization of the Registration Authority
    client returns an empty payload and a nil error, the method returns the
    zero value and a nil error. *)
Theorem RA_empty_response_is_a_zero_value_without_error :
  forall (client : RPCClient) (call : StubCall) (name : string) (data : bytes)
         (w w' : World),
    returns_on_empty_response call = true ->
    stub_request call = (name, (data, None)) ->
    DispatchSync client name data w = (([], None), w') ->
    stub_run client call w = ((zero_result call, None), w').
Proof.
  intros client call name data w w' Hg Hreq Hdisp.
  destruct call; try discriminate Hg; clear Hg;
    dispatch Hreq Hdisp; reflexivity.
Qed.

(** X15.  When the dispatch of a stub method that decodes its response with
    [json.Unmarshal] returns a payload that is not empty, without error, and
    the payload does not decode, the method returns the error of the
    decoding; NewRegistration and NewPendingAuthorization of the Storage
    Authority client return a new error "NewRegistration RPC failed" in its
    place.  The state is as the dispatch left it. *)
Theorem undecodable_response_is_an_error :
  forall (client : RPCClient) (call : StubCall) (name : string) (data resp : bytes)
         (e : error) (w w' : World),
    stub_request call = (name, (data, None)) ->
    DispatchSync client name data w = ((resp, None), w') ->
    len0 resp = false ->
    response_decoding call resp = Some (Some e) ->
    stub_error client call w = (Some (decode_failure_error call e), w').
Proof.
  intros client call name data resp e w w' Hreq Hdisp Hlen Hdec.
  destruct call; simpl in Hdec; try discriminate Hdec;
    dispatch Hreq Hdisp; rewrite ?Hlen; simpl;
    destruct (json_Unmarshal resp) as [v o]; simpl in Hdec;
    inversion Hdec; subst; reflexivity.
Qed.

End StubEdges.

(** ** Adapters: what a request leaves behind *)

Section AdapterEdges.
Context {C : Core} {L : Libs}.

Lemma only_error_inv :
  forall (S : Type) (r : option error * S) (u : unit) (o : option error) (x : S),
    only_error r = ((u, o), x) -> r = (o, x).
Proof.
  intros S [o' s] u o x H; unfold only_error in H; simpl in H.
  inversion H; reflexivity.
Qed.

(** X8.  For every call but an IssueCertificate with another earliestExpiry
    than the zero time: when the request of the call encodes, the adapter
    decodes from that encoding the request that the stub built, and the
    implementation fails on the call with an error (the lookup by short
    serial that finds no row left out), then the handler of the operation has
    called the implementation once, on the arguments of the caller, and writes
    one audit entry, an Error Condition under the name of the operation with
    that error.  The handler returns that error to the transport, except the
    handler of the Certificate Authority for RevokeCertificate, which returns
    nil. *)
Theorem implementation_error_is_audited_once :
  forall (a : Authorities) (call : StubCall) (name : string) (data : bytes)
         (v : Result call) (e : error) (x : ExtState) (w : World),
    carries_arguments call ->
    stub_request call = (name, (data, None)) ->
    decodes_back call data ->
    local_call a call (ext w) = ((v, Some e), x) ->
    is_not_found call e = false ->
    exists (h : Handler) (r : bytes) (o : obj),
      registered (adapter a call) name = Some h /\
      fst (h data w) = (r, returned call e) /\
      audit (snd (h data w)) = audit w ++ [mkAudit ErrorCondition name (Some e) o] /\
      calls (snd (h data w)) = calls w ++ [as_call call] /\
      ext (snd (h data w)) = x.
Proof.
  intros a call name data v e x w Hcarry Hreq Hdec Hloc Hnf.
  destruct call; simpl in v, Hcarry, Hreq, Hdec, Hloc, Hnf |- *;
    inversion Hreq; subst; clear Hreq;
    try apply only_error_inv in Hloc;
    repeat match goal with
           | H : _ /\ _ |- _ => destruct H
           end;
    eexists; eexists; eexists; (split; [reflexivity |]);
    autounfold with handlers; run;
    repeat match goal with
           | |- context [string_of_list_byte (list_byte_of_string _)] =>
             rewrite string_of_list_byte_of_string; run
           | H : ?m = _ |- context [?m] => rewrite H; run
           end;
    repeat split; reflexivity.
Qed.

(** X9.  Every handler that the four constructors register, on every payload:
    it keeps the audit entries and the calls that it finds, adds at most one
    audit entry and calls the implementation at most once.  When it returns
    an error it has added exactly one audit entry, but for
    GetCertificateByShortSerial; when it returns a nil error it has added
    none, but for the two handlers of RevokeCertificate.  Only the handler of
    NewCertificate writes progress lines. *)
Theorem handler_audits_failures_and_nothing_else :
  forall (a : Authorities) (name : string) (h : Handler) (req : bytes) (w : World),
    In (name, h) (bound a) ->
    exists (la : list AuditEntry) (lc : list Call),
      audit (snd (h req w)) = audit w ++ la /\
      calls (snd (h req w)) = calls w ++ lc /\
      (List.length la <= 1)%nat /\
      (List.length lc <= 1)%nat /\
      (snd (fst (h req w)) <> None -> name <> MethodGetCertificateByShortSerial ->
       List.length la = 1%nat) /\
      (snd (fst (h req w)) = None -> name <> MethodRevokeCertificate -> la = []) /\
      (name <> MethodNewCertificate -> info (snd (h req w)) = info w).
Proof.
  intros a name h req w Hin.
  simpl in Hin.
  repeat (destruct Hin as [Hin | Hin]; [inversion Hin; subst; clear Hin |]);
    try contradiction.
  all: autounfold with handlers; run; split_cases; run.
  all: grown.
Qed.

(** X11.  The round trip of a call over any transport that delivers it to the
    adapter of its role, for every operation but an IssueCertificate with
    another earliestExpiry than the zero time: when the adapter decodes the
    request that the stub encoded, the call in process succeeds with the
    result [v], and the stub decodes the result that the adapter encoded,
    the stub method returns [v] and a nil error; the implementation was called
    once on the arguments of the caller and no audit entry was written. *)
Theorem round_trip_over_a_transport_that_delivers :
  forall (a : Authorities) (client : RPCClient) (call : StubCall) (name : string)
         (data : bytes) (v : Result call) (x : ExtState) (w : World),
    carries_arguments call ->
    stub_request call = (name, (data, None)) ->
    delivers client (adapter a call) name data w ->
    decodes_back call data ->
    local_call a call (ext w) = ((v, None), x) ->
    gives_back call v ->
    stub_run client call w = ((v, None), served call x w).
Proof.
  intros a client call name data v x w Hcarry Hreq (h & Hreg & Hdisp) Hdec Hloc Hback.
  unfold served.
  destruct call; simpl in v, Hcarry, Hreq, Hdec, Hloc, Hback |- *;
    inversion Hreq; subst; clear Hreq;
    simpl in Hreg; inversion Hreg; subst h; clear Hreg;
    try apply only_error_inv in Hloc;
    repeat match goal with
           | H : _ /\ _ |- _ => destruct H
           | H : json_round_trips _ |- _ => destruct H as (b & Hm & Hl & Hu)
           | u : unit |- _ => destruct u
           end;
    autounfold with stubs; simpl;
    repeat match goal with
           | H : ?m = (_, None) |- context [?m] => rewrite H; simpl
           end;
    run; rewrite Hdisp; autounfold with handlers; simpl;
    repeat match goal with
           | |- context [string_of_list_byte (list_byte_of_string _)] =>
             rewrite string_of_list_byte_of_string; run
           | H : ?m = _ |- context [?m] => rewrite H; run
           end;
    rewrite <- ?app_assoc, ?app_nil_r; simpl;
    try reflexivity.
  destruct v; reflexivity.
Qed.

(** X12.  For every call but an IssueCertificate with another earliestExpiry
    than the zero time: when the request of the call encodes, the transport
    delivers it to the handler of the adapter and hands back what the handler
    returns, the adapter decodes from the encoding the request that the stub
    built, and the implementation fails on the call with the error [e], then
    the stub method returns [e], or the new error "<operation> RPC failed" in
    the four stub methods of the Storage Authority client that build one;
    RevokeCertificate of the Certificate Authority client and
    UpdateValidations return nil.  The implementation was called once, on the
    arguments of the caller. *)
Theorem remote_failure_seen_by_the_caller :
  forall (a : Authorities) (client : RPCClient) (call : StubCall) (name : string)
         (data : bytes) (v : Result call) (e : error) (x : ExtState) (w : World),
    carries_arguments call ->
    stub_request call = (name, (data, None)) ->
    delivers client (adapter a call) name data w ->
    decodes_back call data ->
    local_call a call (ext w) = ((v, Some e), x) ->
    exists w' : World,
      stub_error client call w = (seen_by_caller call e, w') /\
      calls w' = calls w ++ [as_call call] /\
      ext w' = x.
Proof.
  intros a client call name data v e x w Hcarry Hreq (h & Hreg & Hdisp) Hdec Hloc.
  destruct call; simpl in v, Hcarry, Hreq, Hdec, Hloc |- *;
    inversion Hreq; subst; clear Hreq;
    simpl in Hreg; inversion Hreg; subst h; clear Hreg;
    try apply only_error_inv in Hloc;
    repeat match goal with
           | H : _ /\ _ |- _ => destruct H
           end;
    autounfold with stubs; simpl;
    repeat match goal with
           | H : ?m = (_, None) |- context [?m] => rewrite H; simpl
           end;
    run; rewrite Hdisp; autounfold with handlers; simpl;
    repeat match goal with
           | |- context [string_of_list_byte (list_byte_of_string _)] =>
             rewrite string_of_list_byte_of_string; run
           | H : ?m = _ |- context [?m] => rewrite H; run
           end;
    try (eexists; repeat split; reflexivity).
  destruct (error_eqb e sql_ErrNoRows); eexists; repeat split; reflexivity.
Qed.

End AdapterEdges.

(** * The further properties on the small instances *)

Lemma validateRCodes_first_code_witness :
  @HTTP.validateRCodes ToyHTTP.env ToyHTTP.bad_conf =
    Some (errors_New "'rcodes' contains an invalid HTTP response code, '1000'").
Proof.
  apply (@validateRCodes_names_the_first_code_out_of_range ToyHTTP.env ToyHTTP.bad_conf
           [200%Z] 1000%Z [7%Z]).
  - reflexivity.
  - repeat constructor; unfold HTTP.in_range; lia.
  - unfold HTTP.in_range; lia.
Defined.

Lemma UnmarshalSettings_then_MakeProber_witness :
  @HTTP.UnmarshalSettings ToyHTTP.env (HTTP.mkHTTPConf "" [] "") ToyHTTP.example_settings
    = (Some ToyHTTP.example_conf, None) /\
  @HTTP.MakeProber ToyHTTP.env ToyHTTP.example_conf tt =
    (Some (HTTP.mkHTTPProbe "http://example.com" [200%Z]
             "letsencrypt/boulder-observer-http-client"), None).
Proof.
  apply (@UnmarshalSettings_then_MakeProber ToyHTTP.env (HTTP.mkHTTPConf "" [] "")
           ToyHTTP.example_settings ToyHTTP.example_conf tt); reflexivity.
Defined.

Lemma unencodable_request_witness :
  @stub_error core libs failing (@RA_NewRegistration core too_large) w0
    = (Some unsupported, w0) /\
  @stub_error core libs failing (@SA_NewRegistration core too_large) w0
    = (Some (errors_New "NewRegistration RPC failed"), w0) /\
  @stub_error core libs failing (@CA_GenerateOCSP core too_large) w0
    = (Some unsupported,
       @audited core (mkAudit ErrorCondition "GetRegistration" (Some unsupported) (Obj too_large))
         w0).
Proof.
  refine (conj _ (conj _ _)).
  - apply (@unencodable_request_is_not_dispatched core libs failing
             (@RA_NewRegistration core too_large) "NewRegistration" [] unsupported w0);
      reflexivity.
  - apply (@unencodable_request_is_not_dispatched core libs failing
             (@SA_NewRegistration core too_large) "NewRegistration" [] unsupported w0);
      reflexivity.
  - apply (@unencodable_request_is_not_dispatched core libs failing
             (@CA_GenerateOCSP core too_large) "GenerateOCSP" [] unsupported w0);
      reflexivity.
Defined.

Lemma RA_empty_response_witness :
  @stub_run core libs empty_success (@RA_NewRegistration core 1%Z) w0 = ((0%Z, None), w0).
Proof.
  apply (@RA_empty_response_is_a_zero_value_without_error core libs empty_success
           (@RA_NewRegistration core 1%Z) "NewRegistration" [x01; x01] w0 w0); reflexivity.
Defined.

Lemma undecodable_response_witness :
  @stub_error core libs (canned (truncated, None)) (@RA_NewRegistration core 1%Z) w0
    = (Some syntax_error, w0) /\
  @stub_error core libs (canned (truncated, None)) (@SA_NewPendingAuthorization core 1%Z) w0
    = (Some (errors_New "NewRegistration RPC failed"), w0).
Proof.
  split.
  - apply (@undecodable_response_is_an_error core libs (canned (truncated, None))
             (@RA_NewRegistration core 1%Z) "NewRegistration" [x01; x01] truncated
             syntax_error w0 w0); reflexivity.
  - apply (@undecodable_response_is_an_error core libs (canned (truncated, None))
             (@SA_NewPendingAuthorization core 1%Z) "NewPendingAuthorization" [x01; x01]
             truncated syntax_error w0 w0); reflexivity.
Defined.

Lemma implementation_error_witness :
  (exists (h : @Handler core) (r : bytes) (o : obj),
     registered (@adapter core libs authorities (@CA_RevokeCertificate core "" 0%Z))
       "RevokeCertificate" = Some h /\
     fst (h [x00; x01; x00] w0) = (r, None) /\
     audit (snd (h [x00; x01; x00] w0)) =
       audit w0 ++
       [mkAudit ErrorCondition "RevokeCertificate"
          (Some (foreign_error "no such certificate")) o] /\
     calls (snd (h [x00; x01; x00] w0)) =
       calls w0 ++ [@as_call core (@CA_RevokeCertificate core "" 0%Z)] /\
     ext (snd (h [x00; x01; x00] w0)) = 0%nat) /\
  (exists (h : @Handler core) (r : bytes) (o : obj),
     registered (@adapter core libs authorities (@SA_GetCertificate core ""))
       "GetCertificate" = Some h /\
     fst (h [] w0) = (r, Some sql_ErrNoRows) /\
     audit (snd (h [] w0)) =
       audit w0 ++ [mkAudit ErrorCondition "GetCertificate" (Some sql_ErrNoRows) o] /\
     calls (snd (h [] w0)) = calls w0 ++ [@as_call core (@SA_GetCertificate core "")] /\
     ext (snd (h [] w0)) = 0%nat).
Proof.
  split.
  - apply (@implementation_error_is_audited_once core libs authorities
             (@CA_RevokeCertificate core "" 0%Z) "RevokeCertificate" [x00; x01; x00] tt
             (foreign_error "no such certificate") 0%nat w0); reflexivity.
  - apply (@implementation_error_is_audited_once core libs authorities
             (@SA_GetCertificate core "") "GetCertificate" [] []
             sql_ErrNoRows 0%nat w0); reflexivity.
Defined.

Lemma handler_audits_witness :
  exists (la : list AuditEntry) (lc : list Call),
    audit (snd (@RegistrationAuthorityServer.OnValidationUpdate core libs ra truncated w0))
      = audit w0 ++ la /\
    calls (snd (@RegistrationAuthorityServer.OnValidationUpdate core libs ra truncated w0))
      = calls w0 ++ lc /\
    (List.length la <= 1)%nat /\
    (List.length lc <= 1)%nat /\
    (snd (fst (@RegistrationAuthorityServer.OnValidationUpdate core libs ra truncated w0))
       <> None ->
     MethodOnValidationUpdate <> MethodGetCertificateByShortSerial ->
     List.length la = 1%nat) /\
    (snd (fst (@RegistrationAuthorityServer.OnValidationUpdate core libs ra truncated w0))
       = None ->
     MethodOnValidationUpdate <> MethodRevokeCertificate -> la = []) /\
    (MethodOnValidationUpdate <> MethodNewCertificate ->
     info (snd (@RegistrationAuthorityServer.OnValidationUpdate core libs ra truncated w0))
       = info w0).
Proof.
  apply (@handler_audits_failures_and_nothing_else core libs authorities
           MethodOnValidationUpdate
           (@RegistrationAuthorityServer.OnValidationUpdate core libs ra) truncated w0).
  left; reflexivity.
Defined.

Lemma round_trip_witness :
  @stub_run core libs
    (loopback (@adapter core libs authorities (@SA_AddCertificate core [x30; x01] 5%Z)))
    (@SA_AddCertificate core [x30; x01] 5%Z) w0
  = (("0a", None), @served core (@SA_AddCertificate core [x30; x01] 5%Z) 1%nat w0).
Proof.
  apply (@round_trip_over_a_transport_that_delivers core libs authorities
           (loopback (@adapter core libs authorities (@SA_AddCertificate core [x30; x01] 5%Z)))
           (@SA_AddCertificate core [x30; x01] 5%Z) "AddCertificate"
           [x02; x30; x01; x01; x05] "0a" 1%nat w0); try reflexivity.
  eexists; split; reflexivity.
Defined.

Lemma remote_failure_witness :
  (exists w' : @World core,
     @stub_error core libs
       (loopback (@adapter core libs authorities (@CA_RevokeCertificate core "" 0%Z)))
       (@CA_RevokeCertificate core "" 0%Z) w0 = (None, w') /\
     calls w' = calls w0 ++ [@as_call core (@CA_RevokeCertificate core "" 0%Z)] /\
     ext w' = 0%nat) /\
  (exists w' : @World core,
     @stub_error core libs
       (loopback (@adapter core libs authorities (@SA_GetCertificate core "")))
       (@SA_GetCertificate core "") w0 = (Some sql_ErrNoRows, w') /\
     calls w' = calls w0 ++ [@as_call core (@SA_GetCertificate core "")] /\
     ext w' = 0%nat).
Proof.
  split.
  - apply (@remote_failure_seen_by_the_caller core libs authorities
             (loopback (@adapter core libs authorities (@CA_RevokeCertificate core "" 0%Z)))
             (@CA_RevokeCertificate core "" 0%Z) "RevokeCertificate" [x00; x01; x00] tt
             (foreign_error "no such certificate") 0%nat w0); try reflexivity.
    eexists; split; reflexivity.
  - apply (@remote_failure_seen_by_the_caller core libs authorities
             (loopback (@adapter core libs authorities (@SA_GetCertificate core "")))
             (@SA_GetCertificate core "") "GetCertificate" [] []
             sql_ErrNoRows 0%nat w0); try reflexivity.
    eexists; split; reflexivity.
Defined.

Lemma RA_RevokeCertificate_no_certificate_witness :
  @RegistrationAuthorityServer.RevokeCertificate core libs ra [] w0 =
    (([], None),
     @audited core (mkAudit ImproperMessage "RevokeCertificate" None (Obj ([] : bytes))) w0).
Proof.
  apply (@RA_RevokeCertificate_no_certificate core libs ra [] w0); reflexivity.
Defined.

Lemma undecodable_payload_witness :
  @improper core (@StorageAuthorityServer.AlreadyDeniedCSR core libs sa) "AlreadyDeniedCSR"
    truncated syntax_error w0 /\
  @improper core (@RegistrationAuthorityServer.NewRegistration core libs ra) "NewRegistration"
    truncated syntax_error w0.
Proof.
  pose proof (@undecodable_payload_is_an_improper_message core libs ra va ca sa truncated
                syntax_error w0) as H.
  split.
  - apply (proj2 (proj2 (proj2 (proj2 (proj2 (proj2 (proj2 (proj2 (proj2 (proj2 (proj2
             (proj2 (proj2 (proj2 (proj2 (proj2 H))))))))))))))))
      with (v := mk_alreadyDeniedCSRRequest []); reflexivity.
  - apply (proj1 H) with (v := @mk_registrationRequest core 0%Z); reflexivity.
Defined.

Lemma unparsable_payload_witness :
  @improper core (@RegistrationAuthorityServer.RevokeCertificate core libs ra)
    "RevokeCertificate" truncated asn1_error w0.
Proof.
  apply (proj1 (@unparsable_payload_is_an_improper_message core libs ra ca truncated
                  asn1_error w0)) with (certs := []); reflexivity.
Defined.

Lemma UpdateValidations_returns_nil_witness :
  @ValidationAuthorityClient.UpdateValidations core libs (vac failing) 5%Z 0%Z w0 = (None, w0) /\
  @ValidationAuthorityClient.UpdateValidations core libs (vac failing) too_large 0%Z w0
    = (Some unsupported, w0).
Proof.
  split.
  - apply (@UpdateValidations_returns_nil_once_encoded core libs (vac failing) 5%Z 0%Z
             [x01; x05; x01; x00] None w0); reflexivity.
  - apply (@UpdateValidations_returns_nil_once_encoded core libs (vac failing) too_large 0%Z
             [] (Some unsupported) w0); reflexivity.
Defined.

(** UpdateValidations returns an error, and not nil, for an authorization
    that the codec does not encode. *)
Lemma UpdateValidations_returns_the_encoding_error :
  @json_Marshal _ (@json_updateValidationsRequest core libs)
    (@mk_updateValidationsRequest core too_large 0%Z) = ([], Some unsupported) /\
  @ValidationAuthorityClient.UpdateValidations core libs (vac failing) too_large 0%Z w0
    = (Some unsupported, w0) /\
  fst (@ValidationAuthorityClient.UpdateValidations core libs (vac failing) too_large 0%Z w0)
    <> None.
Proof.
  refine (conj _ (conj _ _)); [reflexivity | reflexivity | discriminate].
Qed.
